(** * get-songs-python: the Flask backend of [api/index.py]

    A shallow embedding of the request handlers of [api/index.py] and of the
    library functions they lean on ([posixpath], [werkzeug.utils.safe_join],
    [werkzeug.utils.send_file]), followed by the properties of the handlers.

    Conventions of the embedding:
    - JSON data (request bodies, collaborator answers, response bodies) are
      Python values, type [value]; floating-point numbers are left out;
    - a Python exception is the [Raise] case of [result]; every exception of
      the model is a subclass of [Exception], so [except Exception] catches
      all of them;
    - a handler returns [result http_response]; [Raise e] out of a handler is
      an exception Flask did not see handled (a generic server error);
    - the catalog client ([sp]) and the extraction tool ([yt_dlp.YoutubeDL])
      are the fields of the class [Services];
    - paths follow POSIX ([os.sep = "/"], no alternative separator). *)

From Stdlib Require Import ZArith List String Ascii Bool Lia DecimalString.
Import ListNotations.
Open Scope string_scope.
Open Scope Z_scope.

Set Implicit Arguments.
Set Warnings "-register-all".

(** ** Python values, exceptions and the operators the handlers use *)

Module Py.

Inductive value : Type :=
| VNone
| VBool (b : bool)
| VInt (z : Z)
| VStr (s : string)
| VList (l : list value)
| VDict (d : list (string * value)).

Inductive exn : Type :=
| KeyError (key : string)
| IndexError
| TypeError
| AttributeError
| FileNotFoundError
| ServiceError (message : string).

Inductive result (A : Type) : Type :=
| Ok (a : A)
| Raise (e : exn).

Arguments Ok {A} a.
Arguments Raise {A} e.

Definition bind {A B : Type} (r : result A) (k : A -> result B) : result B :=
  match r with
  | Ok a => k a
  | Raise e => Raise e
  end.

(** [try: r  except Exception: handler] *)
Definition try_except {A : Type} (r : result A) (handler : result A) : result A :=
  match r with
  | Ok a => Ok a
  | Raise _ => handler
  end.

Fixpoint mapM {A B : Type} (f : A -> result B) (l : list A) : result (list B) :=
  match l with
  | [] => Ok []
  | x :: xs =>
      bind (f x) (fun y => bind (mapM f xs) (fun ys => Ok (y :: ys)))
  end.

(** [bool(v)], the test of [if v:] *)
Definition truthy (v : value) : bool :=
  match v with
  | VNone => false
  | VBool b => b
  | VInt z => negb (z =? 0)
  | VStr s => negb (s =? "")%string
  | VList l => match l with [] => false | _ :: _ => true end
  | VDict d => match d with [] => false | _ :: _ => true end
  end.

Fixpoint assoc (k : string) (d : list (string * value)) : option value :=
  match d with
  | [] => None
  | (k', v) :: d' => if (k' =? k)%string then Some v else assoc k d'
  end.

(** [v.get(k, default)] *)
Definition get (v : value) (k : string) (default : value) : result value :=
  match v with
  | VDict d => Ok (match assoc k d with Some x => x | None => default end)
  | _ => Raise AttributeError
  end.

(** [v[k]] for a string [k] *)
Definition item (v : value) (k : string) : result value :=
  match v with
  | VDict d => match assoc k d with Some x => Ok x | None => Raise (KeyError k) end
  | _ => Raise TypeError
  end.

Definition chars (s : string) : list value :=
  map (fun c => VStr (String c EmptyString)) (list_ascii_of_string s).

(** [l[i]] on a Python sequence: a negative index counts from the end *)
Definition seq_index {A : Type} (l : list A) (i : Z) : result A :=
  let n := Z.of_nat (List.length l) in
  let j := if i <? 0 then i + n else i in
  if (j <? 0) || (n <=? j) then Raise IndexError
  else match nth_error l (Z.to_nat j) with
       | Some x => Ok x
       | None => Raise IndexError
       end.

(** [v[i]] for an integer [i] *)
Definition item_int (v : value) (i : Z) : result value :=
  match v with
  | VList l => seq_index l i
  | VStr s => seq_index (chars s) i
  | VDict _ => Raise (KeyError (NilEmpty.string_of_int (Z.to_int i)))
  | _ => Raise TypeError
  end.

Fixpoint is_substring (k s : string) : bool :=
  prefix k s ||
  match s with
  | EmptyString => false
  | String _ s' => is_substring k s'
  end.

(** ['k' in v] *)
Definition contains (k : string) (v : value) : result bool :=
  match v with
  | VDict d => Ok (match assoc k d with Some _ => true | None => false end)
  | VList l =>
      Ok (existsb (fun x => match x with VStr s => (s =? k)%string | _ => false end) l)
  | VStr s => Ok (is_substring k s)
  | _ => Raise TypeError
  end.

(** a [bool] is an [int] in arithmetic *)
Definition as_int (v : value) : option Z :=
  match v with
  | VInt z => Some z
  | VBool b => Some (if b then 1 else 0)
  | _ => None
  end.

Fixpoint repeat_string (s : string) (n : nat) : string :=
  match n with
  | O => EmptyString
  | S n' => (s ++ repeat_string s n')%string
  end.

Fixpoint repeat_list {A : Type} (l : list A) (n : nat) : list A :=
  match n with
  | O => []
  | S n' => l ++ repeat_list l n'
  end.

(** [a * b] *)
Definition mul (a b : value) : result value :=
  match as_int a, as_int b with
  | Some x, Some y => Ok (VInt (x * y))
  | Some x, None =>
      match b with
      | VStr s => Ok (VStr (repeat_string s (Z.to_nat x)))
      | VList l => Ok (VList (repeat_list l (Z.to_nat x)))
      | _ => Raise TypeError
      end
  | None, Some y =>
      match a with
      | VStr s => Ok (VStr (repeat_string s (Z.to_nat y)))
      | VList l => Ok (VList (repeat_list l (Z.to_nat y)))
      | _ => Raise TypeError
      end
  | None, None => Raise TypeError
  end.

(** [a - b] *)
Definition sub (a b : value) : result value :=
  match as_int a, as_int b with
  | Some x, Some y => Ok (VInt (x - y))
  | _, _ => Raise TypeError
  end.

(** [a + b] *)
Definition add (a b : value) : result value :=
  match as_int a, as_int b with
  | Some x, Some y => Ok (VInt (x + y))
  | _, _ =>
      match a, b with
      | VStr s, VStr t => Ok (VStr (s ++ t))
      | VList l, VList m => Ok (VList (l ++ m))
      | _, _ => Raise TypeError
      end
  end.

(** [a // b]; Python's floor division is [Z.div] *)
Definition floordiv (a : value) (b : Z) : result value :=
  match as_int a with
  | Some x => Ok (VInt (x / b))
  | None => Raise TypeError
  end.

(** [a > b] on numbers *)
Definition gt (a b : value) : result value :=
  match as_int a, as_int b with
  | Some x, Some y => Ok (VBool (y <? x))
  | _, _ => Raise TypeError
  end.

(** [len(v)] *)
Definition len (v : value) : result value :=
  match v with
  | VList l => Ok (VInt (Z.of_nat (List.length l)))
  | VStr s => Ok (VInt (Z.of_nat (String.length s)))
  | VDict d => Ok (VInt (Z.of_nat (List.length d)))
  | _ => Raise TypeError
  end.

(** the bound of a slice, as [slice.indices] computes it for step 1 *)
Definition clamp (n i : Z) : Z :=
  let j := if i <? 0 then i + n else i in
  if j <? 0 then 0 else if n <? j then n else j.

(** [l[start:stop]] *)
Definition slice_list {A : Type} (l : list A) (start stop : Z) : list A :=
  let n := Z.of_nat (List.length l) in
  let lo := clamp n start in
  let hi := clamp n stop in
  firstn (Z.to_nat (hi - lo)) (skipn (Z.to_nat lo) l).

Definition slice_string (s : string) (start stop : Z) : string :=
  let n := Z.of_nat (String.length s) in
  let lo := clamp n start in
  let hi := clamp n stop in
  substring (Z.to_nat lo) (Z.to_nat (hi - lo)) s.

(** [v[start:stop]] *)
Definition slice (v start stop : value) : result value :=
  match start, stop with
  | VInt lo, VInt hi =>
      match v with
      | VList l => Ok (VList (slice_list l lo hi))
      | VStr s => Ok (VStr (slice_string s lo hi))
      | _ => Raise TypeError
      end
  | _, _ => Raise TypeError
  end.

(** the elements a [for] loop or a comprehension draws from [v] *)
Definition iter (v : value) : result (list value) :=
  match v with
  | VList l => Ok l
  | VStr s => Ok (chars s)
  | VDict d => Ok (map (fun kv => VStr (fst kv)) d)
  | _ => Raise TypeError
  end.

(** [s.split(sep)] for a one-character separator *)
Fixpoint split_on (sep : ascii) (s : string) : list string :=
  match s with
  | EmptyString => [EmptyString]
  | String c s' =>
      if Ascii.eqb c sep then EmptyString :: split_on sep s'
      else match split_on sep s' with
           | [] => [String c EmptyString]
           | w :: ws => String c w :: ws
           end
  end.

(** [v.split(sep)]: only a string has the method *)
Definition split (v : value) (sep : ascii) : result (list string) :=
  match v with
  | VStr s => Ok (split_on sep s)
  | _ => Raise AttributeError
  end.

End Py.

Import Py.

Declare Scope py_scope.
Delimit Scope py_scope with py.
Notation "x <- e ;; k" := (bind e (fun x => k))
  (at level 61, e at next level, right associativity) : py_scope.
Notation "' pat <- e ;; k" := (bind e (fun x => match x with pat => k end))
  (at level 61, pat pattern, e at next level, right associativity) : py_scope.
Open Scope py_scope.

(** ** [posixpath] and [werkzeug.utils.safe_join] *)

Module Posix.

Definition sep : ascii := "/"%char.

Definition startswith (p s : string) : bool := prefix p s.

Fixpoint endswith_sep (s : string) : bool :=
  match s with
  | EmptyString => false
  | String c EmptyString => Ascii.eqb c sep
  | String _ s' => endswith_sep s'
  end.

(** [posixpath.isabs] *)
Definition isabs (s : string) : bool := startswith "/" s.

(** [posixpath.join(a, b)] *)
Definition join (a b : string) : string :=
  if startswith "/" b then b
  else if (a =? "")%string || endswith_sep a then (a ++ b)%string
  else (a ++ "/" ++ b)%string.

(** [posixpath.basename]: what follows the last separator *)
Definition basename (p : string) : string :=
  last (split_on sep p) EmptyString.

(** one turn of the loop of [posixpath.normpath] over the components *)
Definition norm_step (initial_slashes : nat) (new_comps : list string)
    (comp : string) : list string :=
  if (comp =? "")%string || (comp =? ".")%string then new_comps
  else if negb (comp =? "..")%string
          || (Nat.eqb initial_slashes 0 && match new_comps with [] => true | _ => false end)
          || (match new_comps with [] => false | _ => true end
              && (last new_comps EmptyString =? "..")%string)
       then new_comps ++ [comp]
       else match new_comps with
            | [] => new_comps
            | _ :: _ => removelast new_comps
            end.

(** [posixpath.normpath] *)
Definition normpath (path : string) : string :=
  if (path =? "")%string then "."
  else
    let initial_slashes :=
      if startswith "/" path then
        if startswith "//" path && negb (startswith "///" path) then 2%nat else 1%nat
      else 0%nat in
    let comps := split_on sep path in
    let new_comps := fold_left (norm_step initial_slashes) comps [] in
    let path := String.concat "/" new_comps in
    let path := (repeat_string "/" initial_slashes ++ path)%string in
    if (path =? "")%string then "." else path.

(** [werkzeug.utils.safe_join(directory, filename)]: [None] when the
    normalised file name is absolute or climbs out through [".."] *)
Definition safe_join (directory filename : string) : option string :=
  let directory := if (directory =? "")%string then "." else directory in
  let filename := if negb (filename =? "")%string then normpath filename else filename in
  if isabs filename
     || startswith "/" filename
     || (filename =? "..")%string
     || startswith "../" filename
  then None
  else Some (join directory filename).

End Posix.

(** ** The external collaborators *)

(** The three option sets the code builds for [yt_dlp.YoutubeDL]:
    the flat search of [search_youtube_songs], [{'quiet': True}] of the
    video-link path, and the download-and-transcode options of
    [search_and_download_song] with their output folder. *)
Inductive ydl_opts : Type :=
| SearchOpts
| QuietOpts
| DownloadOpts (output_folder : string).

(** [sp.track], [sp.playlist_tracks] and [YoutubeDL(opts).extract_info(url,
    download=...)] answer with a JSON value or raise. [repr_container] is
    Python's rendering of a list or a dict inside an f-string, which the
    handlers never look into. *)
Class Services : Type := {
  repr_container : value -> string;
  sp_track : value -> result value;
  sp_playlist_tracks : value -> result value;
  ydl_extract_info : ydl_opts -> value -> bool -> result value
}.

(** ** Responses *)

(** [lambda: os.remove(file_path)], the one callback the code registers *)
Inductive cleanup : Type :=
| OsRemove (path : string).

(** [jsonify(body)] with its status, or the file response of [send_file]
    with the callbacks given to [call_on_close] *)
Inductive http_response : Type :=
| Json (status : Z) (body : value)
| Attachment (path : string) (on_close : list cleanup).

Definition error_body (message : string) : value :=
  VDict [("error", VStr message)].

(** ** The handlers of [api/index.py] *)

Section Handlers.

Context {S : Services}.

Definition DOWNLOAD_FOLDER : string := "downloads".

(** [f"{v}"] *)
Definition py_str (v : value) : string :=
  match v with
  | VNone => "None"
  | VBool true => "True"
  | VBool false => "False"
  | VInt z => NilEmpty.string_of_int (Z.to_int z)
  | VStr s => s
  | VList _ | VDict _ => repr_container v
  end.

(** [search_youtube_songs(song_name, page, limit=5)] *)
Definition search_youtube_songs (song_name page : value) : result (value * value) :=
  let limit := VInt 5 in
  count <- mul limit page ;;
  search_result <-
    ydl_extract_info SearchOpts
      (VStr ("ytsearch" ++ py_str count ++ ":" ++ py_str song_name)) false ;;
  has_entries <- contains "entries" search_result ;;
  if has_entries : bool then
    before <- sub page (VInt 1) ;;
    start <- mul before limit ;;
    end_ <- add start limit ;;
    all_entries <- item search_result "entries" ;;
    entries <- slice all_entries start end_ ;;
    all_entries' <- item search_result "entries" ;;
    total <- len all_entries' ;;
    has_more <- gt total end_ ;;
    Ok (entries, has_more)
  else Ok (VList [], VBool false).

(** [get_spotify_track_info(spotify_link)] *)
Definition get_spotify_track_info (spotify_link : value) : result value :=
  track_info <- sp_track spotify_link ;;
  full_name <- item track_info "name" ;;
  album <- item track_info "album" ;;
  images <- item album "images" ;;
  image <- item_int images 0 ;;
  preview_image <- item image "url" ;;
  duration_ms <- item track_info "duration_ms" ;;
  duration <- floordiv duration_ms 1000 ;;
  has_preview <- contains "preview_url" track_info ;;
  preview_url <- (if has_preview : bool then item track_info "preview_url" else Ok VNone) ;;
  Ok (VDict [("full_name", full_name);
             ("preview_image", preview_image);
             ("duration", duration);
             ("preview_url", preview_url)]).

(** one element of the comprehension of [validate_song] *)
Definition song_option (entry : value) : result value :=
  full_name <- get entry "title" VNone ;;
  thumbnails <- get entry "thumbnails" VNone ;;
  thumbnail <- item_int thumbnails 0 ;;
  preview_image <- item thumbnail "url" ;;
  youtube_link <- get entry "url" VNone ;;
  duration <- get entry "duration" VNone ;;
  preview_url <- get entry "url" VNone ;;
  Ok (VDict [("full_name", full_name);
             ("preview_image", preview_image);
             ("youtube_link", youtube_link);
             ("duration", duration);
             ("preview_url", preview_url)]).

Definition no_valid_input : http_response :=
  Json 400 (error_body "No valid song link or name provided").

(** [validate_song()], on the parsed body [request.json] *)
Definition validate_song (data : value) : result http_response :=
  song_name <- get data "song_name" VNone ;;
  youtube_link <- get data "youtube_link" VNone ;;
  spotify_link <- get data "spotify_link" VNone ;;
  page <- get data "page" (VInt 1) ;;
  if truthy spotify_link then
    match get_spotify_track_info spotify_link with
    | Raise _ => Ok (Json 400 (error_body "Invalid Spotify link"))
    | Ok track_info =>
        full_name <- item track_info "name" ;;
        album <- item track_info "album" ;;
        images <- item album "images" ;;
        image <- item_int images 0 ;;
        preview_image <- item image "url" ;;
        duration_ms <- item track_info "duration_ms" ;;
        duration <- floordiv duration_ms 1000 ;;
        preview_url <- item track_info "preview_url" ;;
        Ok (Json 200 (VDict [("full_name", full_name);
                             ("preview_image", preview_image);
                             ("duration", duration);
                             ("preview_url", preview_url);
                             ("source", VStr "spotify")]))
    end
  else if truthy youtube_link then
    try_except
      (info <- ydl_extract_info QuietOpts youtube_link false ;;
       full_name <- get info "title" VNone ;;
       preview_image <- get info "thumbnail" VNone ;;
       duration <- get info "duration" VNone ;;
       preview_url <- get info "url" VNone ;;
       Ok (Json 200 (VDict [("full_name", full_name);
                            ("preview_image", preview_image);
                            ("duration", duration);
                            ("preview_url", preview_url);
                            ("source", VStr "youtube")])))
      (Ok (Json 400 (error_body "Invalid YouTube link")))
  else if truthy song_name then
    '(youtube_results, has_more) <- search_youtube_songs song_name page ;;
    if truthy youtube_results then
      entries <- iter youtube_results ;;
      song_options <- mapM song_option entries ;;
      Ok (Json 200 (VDict [("song_options", VList song_options);
                           ("has_more", has_more)]))
    else Ok no_valid_input
  else Ok no_valid_input.

(** one turn of the loop of [get_playlist_songs] *)
Definition playlist_song (playlist_item : value) : result value :=
  track <- item playlist_item "track" ;;
  full_name <- item track "name" ;;
  artists <- item track "artists" ;;
  first_artist <- item_int artists 0 ;;
  artist <- item first_artist "name" ;;
  album <- item track "album" ;;
  images <- item album "images" ;;
  image <- item_int images 0 ;;
  preview_image <- item image "url" ;;
  duration_ms <- item track "duration_ms" ;;
  duration <- floordiv duration_ms 1000 ;;
  preview_url <- get track "preview_url" VNone ;;
  Ok (VDict [("full_name", full_name);
             ("artist", artist);
             ("preview_image", preview_image);
             ("duration", duration);
             ("preview_url", preview_url)]).

(** [playlist_link.split('/')[-1].split('?')[0]] *)
Definition playlist_id_of (playlist_link : value) : result string :=
  segments <- split playlist_link "/" ;;
  tail <- seq_index segments (-1) ;;
  seq_index (split_on "?" tail) 0.

(** [get_playlist_songs()], on the parsed body [request.json] *)
Definition get_playlist_songs (data : value) : result http_response :=
  playlist_link <- get data "playlist_link" VNone ;;
  try_except
    (playlist_id <- playlist_id_of playlist_link ;;
     playlist <- sp_playlist_tracks (VStr playlist_id) ;;
     items <- item playlist "items" ;;
     playlist_items <- iter items ;;
     songs <- mapM playlist_song playlist_items ;;
     Ok (Json 200 (VDict [("songs", VList songs)])))
    (Ok (Json 400 (error_body "Invalid Spotify playlist link"))).

(** [search_and_download_song(song_name, output_folder)]: the path of the
    file, or [None] *)
Definition search_and_download_song (song_name : value) (output_folder : string)
  : result (option string) :=
  info <-
    ydl_extract_info (DownloadOpts output_folder)
      (VStr ("ytsearch:" ++ py_str song_name)) true ;;
  has_entries <- contains "entries" info ;;
  if has_entries : bool then
    entries <- item info "entries" ;;
    video_info <- item_int entries 0 ;;
    title <- item video_info "title" ;;
    Ok (Some (output_folder ++ "/" ++ py_str title ++ ".mp3")%string)
  else Ok None.

(** the [for song in song_names] loop of [download_songs]; [if file_path:]
    holds for a non-empty string and fails for [None] *)
Fixpoint download_loop (song_names : list value) (downloaded_songs : list value)
  : result (list value) :=
  match song_names with
  | [] => Ok downloaded_songs
  | song :: rest =>
      file_path <- search_and_download_song song DOWNLOAD_FOLDER ;;
      download_loop rest
        (match file_path with
         | Some p =>
             if negb (p =? "")%string
             then downloaded_songs ++ [VStr (Posix.basename p)]
             else downloaded_songs
         | None => downloaded_songs
         end)
  end.

(** [download_songs()], on the parsed body [request.json] *)
Definition download_songs (data : value) : result http_response :=
  song_names <- get data "songs" VNone ;;
  songs <- iter song_names ;;
  downloaded_songs <- download_loop songs [] ;;
  Ok (Json 200 (VDict [("downloaded_songs", VList downloaded_songs)])).

End Handlers.

(** ** File delivery: the download directory and the life of a response *)

Module Disk.

(** The regular files under one directory, by the relative path the code
    passes. *)
Definition filesystem : Type := list string.

Definition is_file (fs : filesystem) (path : string) : bool :=
  existsb (fun q => (q =? path)%string) fs.

(** [os.remove(path)] *)
Definition unlink (fs : filesystem) (path : string) : filesystem :=
  filter (fun q => negb (q =? path)%string) fs.

(** how the transfer of a response body ends *)
Inductive transfer : Type :=
| Completed
| ClientAborted.

(** what a request does to the disk and to the connection, in order *)
Inductive event : Type :=
| EvStat (path : string)
| EvOpen (path : string)
| EvTransferEnd (how : transfer)
| EvRemove (path : string).

(** the path an event touches *)
Definition touched (e : event) : option string :=
  match e with
  | EvStat p | EvOpen p | EvRemove p => Some p
  | EvTransferEnd _ => None
  end.

(** [send_file(path, as_attachment=True)]: without a path there is no name
    to guess a MIME type from ([TypeError]); otherwise the file is looked up
    and opened, and the lookup fails for a path that is no regular file. *)
Definition send_file (fs : filesystem) (path_or_file : option string)
  : result string * list event :=
  match path_or_file with
  | None => (Raise TypeError, [])
  | Some p =>
      if is_file fs p then (Ok p, [EvStat p; EvOpen p])
      else (Raise FileNotFoundError, [EvStat p])
  end.

(** [download_file(filename)]; the whole body is under [try ... except
    Exception] *)
Definition download_file (fs : filesystem) (filename : string)
  : http_response * list event :=
  let file_path := Posix.safe_join DOWNLOAD_FOLDER filename in
  match send_file fs file_path with
  | (Ok p, events) => (Attachment p [OsRemove p], events)
  | (Raise _, events) => (Json 404 (error_body "File not found"), events)
  end.

(** The two directories a relative path is read from. Flask's [send_file]
    resolves it against the application root ([app.root_path]); [os.remove],
    like the extraction tool, against the working directory of the process.
    [cwd_files] is [None] when the working directory is the application
    root, and the files of the working directory otherwise. *)
Record state : Type := {
  root_files : filesystem;
  cwd_files : option filesystem
}.

(** the files [os.remove] and the extraction tool see *)
Definition working_files (d : state) : filesystem :=
  match cwd_files d with
  | Some files => files
  | None => root_files d
  end.

(** [os.remove(path)], from the working directory *)
Definition os_remove (d : state) (path : string) : state :=
  match cwd_files d with
  | Some files =>
      {| root_files := root_files d; cwd_files := Some (unlink files path) |}
  | None =>
      {| root_files := unlink (root_files d) path; cwd_files := None |}
  end.

Definition run_cleanup (d : state) (c : cleanup) : state * list event :=
  match c with
  | OsRemove p => (os_remove d p, [EvRemove p])
  end.

(** [Response.close()]: the callbacks given to [call_on_close], in order *)
Fixpoint run_on_close (d : state) (cs : list cleanup) : state * list event :=
  match cs with
  | [] => (d, [])
  | c :: cs' =>
      let '(d1, ev1) := run_cleanup d c in
      let '(d2, ev2) := run_on_close d1 cs' in
      (d2, (ev1 ++ ev2)%list)
  end.

(** The requests the route [/download_file/<filename>] answers: a [GET]; a
    [HEAD], which Flask adds to a route declared for [GET]; a [GET] whose
    conditional headers match the file, which [send_file] answers with 304
    and no body. *)
Inductive request_kind : Type :=
| Get
| Head
| GetNotModified.

(** One request from handler to closed body, as [Response.get_app_iter]
    hands the response over to the server. The response of [send_file] is
    [direct_passthrough]: for a [GET] answered in full the server is given
    the file wrapper itself, sends it, and closes the wrapper, which closes
    the file; the response is not closed and its [call_on_close] callbacks
    do not run. For a [HEAD] and for a 304 the body is empty and closing it
    closes the response, which runs the callbacks. *)
Definition serve_download (d : state) (filename : string) (kind : request_kind)
    (how : transfer) : state * http_response * list event :=
  let '(response, events) := download_file (root_files d) filename in
  match response with
  | Attachment _ on_close =>
      match kind with
      | Get => (d, response, (events ++ [EvTransferEnd how])%list)
      | Head | GetNotModified =>
          let '(d', closing) := run_on_close d on_close in
          (d', response, (events ++ closing)%list)
      end
  | Json _ _ => (d, response, events)
  end.

End Disk.

(** ** Where a path leads *)

Module Confinement.

(** A place relative to the working directory: [up] levels above it, then
    down through [stack] (innermost name first); or somewhere under the
    root, for an absolute path. *)
Inductive location : Type :=
| Absolute
| Relative (up : nat) (stack : list string).

(** follow one component of a path *)
Definition enter (loc : location) (comp : string) : location :=
  match loc with
  | Absolute => Absolute
  | Relative up stack =>
      if (comp =? "")%string || (comp =? ".")%string then loc
      else if (comp =? "..")%string then
        match stack with
        | [] => Relative (S up) []
        | _ :: outer => Relative up outer
        end
      else Relative up (comp :: stack)
  end.

(** the place a path names, read from the working directory *)
Definition resolve (path : string) : location :=
  if Posix.isabs path then Absolute
  else fold_left enter (split_on Posix.sep path) (Relative 0 []).

(** the place is [directory] (a single name under the working directory) or
    lies below it *)
Definition inside (directory : string) (loc : location) : bool :=
  match loc with
  | Relative O stack =>
      match rev stack with
      | outermost :: _ => (outermost =? directory)%string
      | [] => false
      end
  | _ => false
  end.

(** joining [filename] to [directory] names a place outside [directory] *)
Definition escapes (directory filename : string) : bool :=
  negb (inside directory (resolve (Posix.join directory filename))).

(** a name with no separator in it *)
Fixpoint sep_free (s : string) : bool :=
  match s with
  | EmptyString => true
  | String c s' => negb (Ascii.eqb c Posix.sep) && sep_free s'
  end.

(** a component that names an entry: not empty, not ["."], not [".."] *)
Definition plain (comp : string) : bool :=
  negb ((comp =? "")%string || (comp =? ".")%string || (comp =? "..")%string)
  && sep_free comp.

(** the shape of the components [posixpath.normpath] keeps for a relative
    path: some [".."] to begin with, then names *)
Definition normal (comps : list string) : Prop :=
  exists (k : nat) (names : list string),
    comps = (repeat ".." k ++ names)%list /\
    Forall (fun c => plain c = true) names.

End Confinement.

(** ** Reading a request body *)

(** the value of [data.get(k)] for a body that is a JSON object: [None] for
    a field that is missing *)
Definition field (d : list (string * value)) (k : string) : value :=
  match assoc k d with
  | Some x => x
  | None => VNone
  end.

(** The input [validate_song] goes by: the first of the catalog-track link,
    the video link and the free-text query, in this order, whose value Python
    takes as true (a field that is missing, [null] or empty is not given). *)
Definition first_present (d : list (string * value)) : option (string * value) :=
  if truthy (field d "spotify_link") then Some ("spotify_link", field d "spotify_link")
  else if truthy (field d "youtube_link") then Some ("youtube_link", field d "youtube_link")
  else if truthy (field d "song_name") then Some ("song_name", field d "song_name")
  else None.

(** the entries at the positions [(page-1)*5 <= i < page*5] of a result
    list, for a page counted from 1 *)
Definition page_window {A : Type} (entries : list A) (page : Z) : list A :=
  firstn 5 (skipn (Z.to_nat ((page - 1) * 5)) entries).

(** ** A stub catalog and a stub extraction tool

    Fixed answers for the collaborators, to run the handlers on. *)

Module Sample.

Definition image (url : string) : value :=
  VDict [("url", VStr url)].

Definition track : value :=
  VDict [("name", VStr "So What");
         ("artists", VList [VDict [("name", VStr "Miles Davis")]]);
         ("album", VDict [("images", VList [image "https://i.scdn.co/image/kob"])]);
         ("duration_ms", VInt 562999);
         ("preview_url", VNone)].

Definition playlist : value :=
  VDict [("items", VList [VDict [("track", track)]])].

Definition entry (n : string) : value :=
  VDict [("title", VStr ("Take " ++ n));
         ("thumbnails", VList [image ("https://i.ytimg.com/vi/" ++ n)]);
         ("url", VStr ("https://www.youtube.com/watch?v=" ++ n));
         ("duration", VInt 324)].

Definition entries : list value :=
  map entry ["1"; "2"; "3"; "4"; "5"; "6"; "7"].

(** the search answers with the same seven entries whatever the query; a
    download fails for the name ["a"] and succeeds for any other *)
Definition extract_info (opts : ydl_opts) (url : value) (download : bool)
  : result value :=
  match opts with
  | SearchOpts => Ok (VDict [("entries", VList entries)])
  | QuietOpts => Ok (entry "0")
  | DownloadOpts _ =>
      match url with
      | VStr "ytsearch:a" => Raise (ServiceError "DownloadError")
      | _ => Ok (VDict [("entries", VList [entry "1"])])
      end
  end.

Definition services : Services :=
  {| repr_container := fun _ => "[...]";
     sp_track := fun _ => Ok track;
     sp_playlist_tracks := fun _ => Ok playlist;
     ydl_extract_info := extract_info |}.

(** the option [validate_song] builds from [entry n] *)
Definition option_of (n : string) : value :=
  VDict [("full_name", VStr ("Take " ++ n));
         ("preview_image", VStr ("https://i.ytimg.com/vi/" ++ n));
         ("youtube_link", VStr ("https://www.youtube.com/watch?v=" ++ n));
         ("duration", VInt 324);
         ("preview_url", VStr ("https://www.youtube.com/watch?v=" ++ n))].

(** the metadata [get_spotify_track_info] builds from [track] *)
Definition metadata : value :=
  VDict [("full_name", VStr "So What");
         ("preview_image", VStr "https://i.scdn.co/image/kob");
         ("duration", VInt 562);
         ("preview_url", VNone)].

Definition spotify_link : value :=
  VStr "https://open.spotify.com/track/4vLYewWIvqHfKtJDk8c8tq".

Definition youtube_link : value :=
  VStr "https://www.youtube.com/watch?v=zqNTltOGh5c".

(** a body with all three inputs and a page, and one with the first alone *)
Definition all_inputs : list (string * value) :=
  [("song_name", VStr "so what");
   ("youtube_link", youtube_link);
   ("spotify_link", spotify_link);
   ("page", VInt 3)].

Definition link_only : list (string * value) :=
  [("spotify_link", spotify_link)].

(** two downloaded files *)
Definition disk : Disk.filesystem :=
  ["downloads/So What.mp3"; "downloads/Take 1.mp3"].

(** the same files, with the process run from the application root *)
Definition one_directory : Disk.state :=
  {| Disk.root_files := disk; Disk.cwd_files := None |}.

End Sample.

(** ** The static asset server, [serve] *)

Module Static.

(** what [os.path.exists] and [os.path.isfile] answer for a path *)
Record tree : Type := {
  path_exists : string -> bool;
  path_isfile : string -> bool
}.

(** a file response for a path, or the [NotFound] that
    [send_from_directory] raises and Flask answers with 404 *)
Inductive outcome : Type :=
| ServedFile (path : string)
| NotFound.

(** [app.static_folder] of [Flask(__name__, static_folder='build')] *)
Definition static_folder (root_path : string) : string :=
  Posix.join root_path "build".

(** [send_from_directory(directory, path)]: the name goes through
    [safe_join], the result is read from the application root, and only a
    regular file is sent *)
Definition send_from_directory (t : tree) (root_path directory path : string)
  : outcome :=
  match Posix.safe_join directory path with
  | None => NotFound
  | Some path_str =>
      let path_str := Posix.join root_path path_str in
      if path_isfile t path_str then ServedFile path_str else NotFound
  end.

(** [serve(path)] *)
Definition serve (t : tree) (root_path path : string) : outcome :=
  if negb (path =? "")%string
     && path_exists t (Posix.join (static_folder root_path) path)
  then send_from_directory t root_path (static_folder root_path) path
  else send_from_directory t root_path (static_folder root_path) "index.html".

End Static.

(** ** Characters, names and results *)

(** a string with no occurrence of the character [c] *)
Fixpoint char_free (c : ascii) (s : string) : bool :=
  match s with
  | EmptyString => true
  | String x s' => negb (Ascii.eqb x c) && char_free c s'
  end.

(** the value of [data.get('page', 1)] for a body that is a JSON object *)
Definition page_field (d : list (string * value)) : value :=
  match assoc "page" d with
  | Some x => x
  | None => VInt 1
  end.

(** the file names [download_songs] keeps of the paths its loop was handed *)
Fixpoint kept_names (paths : list (option string)) : list value :=
  match paths with
  | [] => []
  | Some p :: rest =>
      if negb (p =? "")%string then VStr (Posix.basename p) :: kept_names rest
      else kept_names rest
  | None :: rest => kept_names rest
  end.

(** ** Stub collaborators with one answer each *)

Module Cases.

(** every lookup of a track answers [track], every lookup of a playlist
    [playlist], every call of the extraction tool [info] *)
Definition fixed (track playlist info : result value) : Services :=
  {| repr_container := fun _ => "[...]";
     sp_track := fun _ => track;
     sp_playlist_tracks := fun _ => playlist;
     ydl_extract_info := fun _ _ _ => info |}.

Definition silent : result value := Raise (ServiceError "unused").

(** a search entry with a title and a link and no thumbnails *)
Definition bare_entry : value :=
  VDict [("title", VStr "Blue in Green");
         ("url", VStr "https://www.youtube.com/watch?v=TLDflhhdPCg")].

(** a video as the tool describes it, without a stream [url] *)
Definition video : value :=
  VDict [("title", VStr "Flamenco Sketches");
         ("thumbnail", VStr "https://i.ytimg.com/vi/fs/hq.jpg");
         ("duration", VInt 566)].

(** a playlist whose second item has lost its track *)
Definition holed_playlist : value :=
  VDict [("items", VList [VDict [("track", Sample.track)];
                          VDict [("track", VNone)]])].

(** a static folder with an entry document, a script and a directory; the
    file [/srv/app/index.py] lies outside of it *)
Definition site : Static.tree :=
  {| Static.path_exists := fun p =>
       existsb (String.eqb p)
         ["/srv/app/build/index.html"; "/srv/app/build/main.js";
          "/srv/app/build/static"; "/srv/app/build/../index.py"];
     Static.path_isfile := fun p =>
       existsb (String.eqb p)
         ["/srv/app/build/index.html"; "/srv/app/build/main.js";
          "/srv/app/index.py"; "/srv/app/build/../index.py"] |}.

(** a ranking of twelve entries, and a tool that answers a search for [n]
    results with the first [n] of the ranking *)
Definition ranking : list value :=
  map Sample.entry
    ["1"; "2"; "3"; "4"; "5"; "6"; "7"; "8"; "9"; "10"; "11"; "12"].

Definition ranked_search (opts : ydl_opts) (url : value) (download : bool)
  : result value :=
  match url with
  | VStr "ytsearch5:so what" => Ok (VDict [("entries", VList (firstn 5 ranking))])
  | VStr "ytsearch10:so what" => Ok (VDict [("entries", VList (firstn 10 ranking))])
  | _ => Raise (ServiceError "DownloadError")
  end.

Definition ranked : Services :=
  {| repr_container := fun _ => "[...]";
     sp_track := fun _ => silent;
     sp_playlist_tracks := fun _ => silent;
     ydl_extract_info := ranked_search |}.

(** a tool whose search for ["b"] comes back without ['entries'] *)
Definition patchy_search (opts : ydl_opts) (url : value) (download : bool)
  : result value :=
  match url with
  | VStr "ytsearch:b" => Ok (VDict [("id", VStr "b")])
  | _ => Ok (VDict [("entries", VList [Sample.entry "1"])])
  end.

Definition patchy : Services :=
  {| repr_container := fun _ => "[...]";
     sp_track := fun _ => silent;
     sp_playlist_tracks := fun _ => silent;
     ydl_extract_info := patchy_search |}.

(** the answer to a search that found nothing, and one whose first entry
    has a ["/"] in its title *)
Definition no_hit : value :=
  VDict [("entries", VList [])].

Definition slash_hit : value :=
  VDict [("entries", VList [VDict [("title", VStr "AC/DC - Thunderstruck")]])].

(** a track whose album has no image *)
Definition plain_track : value :=
  VDict [("name", VStr "So What");
         ("album", VDict [("images", VList [])]);
         ("duration_ms", VInt 562999)].

End Cases.

(** * Properties *)

Unset Implicit Arguments.

Ltac inv H := inversion H; subst; clear H.

(** take apart a chain of [bind]s that ended in [Ok] *)
Ltac bind_ok H :=
  repeat match type of H with
         | bind ?r _ = Ok _ =>
             let E := fresh "E" in
             destruct r eqn:E; cbn [bind] in H; [ | discriminate H ]
         end.

(** a floor division that went through was on an integer *)
Ltac floordiv_ok :=
  match goal with
  | H : floordiv ?x _ = Ok _ |- _ =>
      let I := fresh "I" in
      unfold floordiv in H; destruct (as_int x) eqn:I; inv H
  end.

Section HandlerProperties.

Context {S : Services}.

Lemma get_field (d : list (string * value)) (k : string) :
  get (VDict d) k VNone = Ok (field d k).
Proof. reflexivity. Qed.

Lemma item_dict_inv (v : value) (k : string) (x : value) :
  item v k = Ok x -> exists d, v = VDict d /\ assoc k d = Some x.
Proof.
  destruct v; cbn; try discriminate.
  destruct (assoc k d) eqn:E; intro H; inv H. eauto.
Qed.

Lemma mapM_Forall2 (A B : Type) (f : A -> result B) (l : list A) (l' : list B) :
  mapM f l = Ok l' -> Forall2 (fun x y => f x = Ok y) l l'.
Proof.
  revert l'. induction l as [| x xs IH]; cbn; intros l' H.
  - inv H. constructor.
  - bind_ok H. inv H. constructor; auto.
Qed.

Lemma song_option_urls (entry option : value) :
  song_option entry = Ok option ->
  item option "youtube_link" = get entry "url" VNone /\
  item option "preview_url" = get entry "url" VNone.
Proof.
  unfold song_option. intro H. bind_ok H. inv H.
  split; reflexivity.
Qed.

Lemma song_options_urls (entries options : list value) :
  mapM song_option entries = Ok options ->
  Forall (fun option =>
            item option "preview_url" = item option "youtube_link" /\
            exists url, item option "youtube_link" = Ok url)
         options.
Proof.
  intro M. apply mapM_Forall2 in M.
  induction M as [| entry option es os H _ IH]; constructor; auto.
  pose proof H as U. apply song_option_urls in U. destruct U as [L P].
  rewrite L, P. split; [ reflexivity | ].
  unfold song_option in H. bind_ok H. eauto.
Qed.

(** a [song_options] list in a response comes out of the free-text branch:
    a search, then one option for each of the entries it returned *)
Lemma song_options_origin (data : value) (status : Z) (body : value)
    (song_options : list value) :
  validate_song data = Ok (Json status body) ->
  item body "song_options" = Ok (VList song_options) ->
  exists song_name page youtube_results has_more entries,
    search_youtube_songs song_name page = Ok (youtube_results, has_more) /\
    iter youtube_results = Ok entries /\
    mapM song_option entries = Ok song_options.
Proof.
  unfold validate_song. intros V B. bind_ok V.
  destruct (truthy a1).
  - destruct (get_spotify_track_info a1); [ | inv V; discriminate B ].
    bind_ok V. inv V. discriminate B.
  - destruct (truthy a0).
    + unfold try_except in V.
      match type of V with
      | match ?r with _ => _ end = _ => destruct r as [r0 |] eqn:R
      end.
      * bind_ok R. inv R. inv V. discriminate B.
      * inv V. discriminate B.
    + destruct (truthy a); [ | inv V; discriminate B ].
      bind_ok V. destruct a3 as [youtube_results has_more].
      destruct (truthy youtube_results); [ | inv V; discriminate B ].
      bind_ok V. inv V. cbn in B. inv B.
      eexists _, _, _, _, _. repeat split; eassumption.
Qed.

(** what the catalog-track branch of [validate_song] comes to: the lookup
    failed, or the handler reads ['name'] off the metadata it was handed *)
Lemma spotify_branch (d : list (string * value)) :
  truthy (field d "spotify_link") = true ->
  validate_song (VDict d) =
    match get_spotify_track_info (field d "spotify_link") with
    | Raise _ => Ok (Json 400 (error_body "Invalid Spotify link"))
    | Ok _ => Raise (KeyError "name")
    end.
Proof.
  intro T. unfold validate_song. rewrite !get_field. cbn [get bind].
  rewrite T.
  destruct (get_spotify_track_info (field d "spotify_link")) as [meta |] eqn:G;
    [ | reflexivity ].
  unfold get_spotify_track_info in G. bind_ok G. inv G. reflexivity.
Qed.

(** the video-link branch looks at the video link alone *)
Lemma youtube_branch (d : list (string * value)) :
  truthy (field d "spotify_link") = false ->
  truthy (field d "youtube_link") = true ->
  validate_song (VDict d) =
    try_except
      (info <- ydl_extract_info QuietOpts (field d "youtube_link") false ;;
       full_name <- get info "title" VNone ;;
       preview_image <- get info "thumbnail" VNone ;;
       duration <- get info "duration" VNone ;;
       preview_url <- get info "url" VNone ;;
       Ok (Json 200 (VDict [("full_name", full_name);
                            ("preview_image", preview_image);
                            ("duration", duration);
                            ("preview_url", preview_url);
                            ("source", VStr "youtube")])))
      (Ok (Json 400 (error_body "Invalid YouTube link"))).
Proof.
  intros T1 T2. unfold validate_song. rewrite !get_field. cbn [get bind].
  rewrite T1, T2. reflexivity.
Qed.

Lemma download_loop_raises (before : list value) (song : value)
    (rest acc : list value) (e : exn) :
  ydl_extract_info (DownloadOpts DOWNLOAD_FOLDER)
    (VStr ("ytsearch:" ++ py_str song)) true = Raise e ->
  exists e', download_loop (before ++ song :: rest) acc = Raise e'.
Proof.
  intro F. revert acc. induction before as [| x xs IH]; intro acc; cbn.
  - unfold search_and_download_song. rewrite F. cbn. eauto.
  - destruct (search_and_download_song x DOWNLOAD_FOLDER); cbn; eauto.
Qed.

(** ** Slices *)

Ltac ltb_cases :=
  repeat (cbv iota;
          match goal with
          | |- context [?a <? ?b] =>
              lazymatch a with
              | context [if _ then _ else _] => fail
              | _ => destruct (Z.ltb_spec a b)
              end
          end);
  cbv iota.

Lemma clamp_bounds (n i : Z) : 0 <= n -> 0 <= clamp n i <= n.
Proof. intro Hn. unfold clamp. cbv zeta. ltb_cases; lia. Qed.

Lemma clamp_nonneg (n i : Z) : 0 <= n -> 0 <= i -> clamp n i = Z.min i n.
Proof. intros Hn Hi. unfold clamp. cbv zeta. ltb_cases; lia. Qed.

Lemma clamp_window (n lo : Z) :
  0 <= n -> clamp n (lo + 5) - clamp n lo <= 5.
Proof. intro Hn. unfold clamp. cbv zeta. ltb_cases; lia. Qed.

Lemma slice_list_window_length (A : Type) (l : list A) (lo : Z) :
  (List.length (slice_list l lo (lo + 5)) <= 5)%nat.
Proof.
  unfold slice_list.
  set (n := Z.of_nat (List.length l)).
  etransitivity; [ apply firstn_le_length | ].
  assert (Hn : 0 <= n) by (unfold n; lia).
  pose proof (clamp_window n lo Hn). lia.
Qed.

Lemma slice_list_page (A : Type) (l : list A) (page : Z) :
  1 <= page ->
  slice_list l ((page - 1) * 5) ((page - 1) * 5 + 5) = page_window l page.
Proof.
  intro Hp. unfold slice_list, page_window.
  remember (Z.of_nat (List.length l)) as n eqn:En.
  remember ((page - 1) * 5) as lo eqn:Elo.
  assert (Hlo : 0 <= lo) by lia.
  assert (Hn : 0 <= n) by lia.
  rewrite !clamp_nonneg by lia.
  destruct (Z.le_gt_cases n lo) as [Hbig | Hsmall].
  - (* the window starts past the end *)
    rewrite !skipn_all2 by lia. now rewrite !firstn_nil.
  - replace (Z.min lo n) with lo by lia.
    destruct (Z.le_gt_cases (lo + 5) n) as [Hfull | Hshort].
    + replace (Z.to_nat (Z.min (lo + 5) n - lo)) with 5%nat by lia. reflexivity.
    + (* fewer than five entries are left *)
      rewrite !firstn_all2; [ reflexivity | | ]; rewrite length_skipn; lia.
Qed.

Lemma substring_length_le (n m : nat) (s : string) :
  (String.length (substring n m s) <= m)%nat.
Proof.
  revert n m. induction s as [| c s IH]; intros [| n] [| m]; cbn;
    try lia; try apply IH.
  specialize (IH 0%nat m). lia.
Qed.

Lemma chars_length (s : string) : List.length (chars s) = String.length s.
Proof.
  unfold chars. rewrite length_map.
  induction s as [| c s IH]; cbn; [ reflexivity | now rewrite IH ].
Qed.

Lemma slice_string_window_length (s : string) (lo : Z) :
  (String.length (slice_string s lo (lo + 5)) <= 5)%nat.
Proof.
  unfold slice_string.
  set (n := Z.of_nat (String.length s)).
  etransitivity; [ apply substring_length_le | ].
  assert (Hn : 0 <= n) by (unfold n; lia).
  pose proof (clamp_window n lo Hn). lia.
Qed.

(** whatever the query and the page are, a search hands back at most five
    results to loop over *)
Lemma search_results_window (song_name page youtube_results has_more : value)
    (entries : list value) :
  search_youtube_songs song_name page = Ok (youtube_results, has_more) ->
  iter youtube_results = Ok entries ->
  (List.length entries <= 5)%nat.
Proof.
  unfold search_youtube_songs. intros R I. bind_ok R.
  destruct a1.
  - bind_ok R. inv R.
    match goal with
    | H : sub page _ = Ok ?b |- _ =>
        unfold sub in H; destruct (as_int page); cbn in H; inv H
    end.
    cbn in E3. inv E3. cbn in E4. inv E4.
    match goal with
    | H : slice ?v _ _ = Ok _ |- _ => destruct v; cbn in H; inv H
    end.
    + cbn in I. inv I. rewrite chars_length. apply slice_string_window_length.
    + cbn in I. inv I. apply slice_list_window_length.
  - inv R. cbn in I. inv I. cbn. lia.
Qed.

(** hence a [song_options] list in a response has at most five options *)
Lemma song_options_at_most_five (data : value) (status : Z) (body : value)
    (song_options : list value) :
  validate_song data = Ok (Json status body) ->
  item body "song_options" = Ok (VList song_options) ->
  (List.length song_options <= 5)%nat.
Proof.
  intros V B.
  destruct (song_options_origin _ _ _ _ V B)
    as (name & page & results & more & entries & R & I & M).
  apply mapM_Forall2, Forall2_length in M. rewrite <- M.
  exact (search_results_window _ _ _ _ _ R I).
Qed.

(** ** The song resolver, [/validate_song] *)

(** C2. A request with a catalog-track link whose lookup succeeds should get
    the 200 body with [source = "spotify"]. The handler does not get there:
    once [get_spotify_track_info] has handed back the metadata it built, the
    handler reads ['name'] off it, a key of the provider's answer and not of
    that metadata, outside the [try], and the request ends in [KeyError]. *)
Theorem validate_song_spotify_success_raises (d : list (string * value))
    (metadata : value) :
  truthy (field d "spotify_link") = true ->
  get_spotify_track_info (field d "spotify_link") = Ok metadata ->
  validate_song (VDict d) = Raise (KeyError "name") /\
  forall status body, validate_song (VDict d) <> Ok (Json status body).
Proof.
  intros T G. rewrite (spotify_branch d T), G.
  split; [ reflexivity | discriminate ].
Qed.

(** C4. For a query and an integer page, [search_youtube_songs] asks the
    extraction tool for [5 * page] results with ["ytsearch<5*page>:<query>"];
    when the answer carries the list [entries], it returns the slice
    [entries[(page-1)*5 : page*5]], which has at most 5 elements and for a
    page counted from 1 is the entries at the positions from [(page-1)*5]
    up to [page*5] excluded, and [has_more] is true exactly when [entries]
    has more than [page*5] elements. *)
Theorem search_youtube_songs_page (song_name : value) (page : Z)
    (search_result : value) (entries : list value) :
  ydl_extract_info SearchOpts
    (VStr ("ytsearch" ++ py_str (VInt (5 * page)) ++ ":" ++ py_str song_name))
    false = Ok search_result ->
  item search_result "entries" = Ok (VList entries) ->
  search_youtube_songs song_name (VInt page) =
    Ok (VList (slice_list entries ((page - 1) * 5) (page * 5)),
        VBool (page * 5 <? Z.of_nat (List.length entries)))
  /\ (List.length (slice_list entries ((page - 1) * 5) (page * 5)) <= 5)%nat
  /\ (1 <= page ->
      slice_list entries ((page - 1) * 5) (page * 5) = page_window entries page)
  /\ ((page * 5 <? Z.of_nat (List.length entries)) = true <->
      page * 5 < Z.of_nat (List.length entries)).
Proof.
  intros Q E.
  replace (page * 5) with ((page - 1) * 5 + 5) by lia.
  split; [ | split; [ | split ] ].
  - unfold search_youtube_songs. cbn [mul as_int bind]. rewrite Q. cbn [bind].
    destruct (item_dict_inv _ _ _ E) as (d & -> & A).
    cbn [contains bind]. rewrite A. cbn [sub mul add as_int bind].
    cbn [item]. rewrite A. cbn [bind slice len gt as_int]. reflexivity.
  - apply slice_list_window_length.
  - apply slice_list_page.
  - apply Z.ltb_lt.
Qed.

(** C6. The metadata [get_spotify_track_info] resolves for a track carries,
    as [duration], the provider's [duration_ms] divided by 1000 and rounded
    down; each song of [get_playlist_songs] is built the same way from its
    track. And the metadata is resolved whenever the provider's answer has
    the name, a first album image and an integer [duration_ms]. *)
Theorem duration_is_ms_div_1000 :
  (forall link metadata,
      get_spotify_track_info link = Ok metadata ->
      exists track_info duration_ms ms,
        sp_track link = Ok track_info /\
        item track_info "duration_ms" = Ok duration_ms /\
        as_int duration_ms = Some ms /\
        item metadata "duration" = Ok (VInt (ms / 1000)))
  /\ (forall playlist_item song,
      playlist_song playlist_item = Ok song ->
      exists track duration_ms ms,
        item playlist_item "track" = Ok track /\
        item track "duration_ms" = Ok duration_ms /\
        as_int duration_ms = Some ms /\
        item song "duration" = Ok (VInt (ms / 1000)))
  /\ (forall link track_info full_name album images image url ms,
      sp_track link = Ok track_info ->
      item track_info "name" = Ok full_name ->
      item track_info "album" = Ok album ->
      item album "images" = Ok (VList (image :: images)) ->
      item image "url" = Ok url ->
      item track_info "duration_ms" = Ok (VInt ms) ->
      exists metadata,
        get_spotify_track_info link = Ok metadata /\
        item metadata "duration" = Ok (VInt (ms / 1000))).
Proof.
  split; [ | split ].
  - intros link metadata G. unfold get_spotify_track_info in G.
    bind_ok G. inv G. floordiv_ok.
    eexists _, _, _.
    split; [ reflexivity | split; [ eassumption | split; [ eassumption | reflexivity ] ] ].
  - intros playlist_item song G. unfold playlist_song in G.
    bind_ok G. inv G. floordiv_ok.
    eexists _, _, _.
    split; [ reflexivity | split; [ eassumption | split; [ eassumption | reflexivity ] ] ].
  - intros link track_info full_name album images image url ms T N A I U D.
    unfold get_spotify_track_info. rewrite T. cbn [bind].
    rewrite N. cbn [bind]. rewrite A. cbn [bind]. rewrite I. cbn [bind].
    change (item_int (VList (image :: images)) 0) with (Ok image : result value).
    cbn [bind]. rewrite U. cbn [bind]. rewrite D. cbn [bind floordiv as_int].
    destruct (item_dict_inv _ _ _ D) as (d & -> & Hd).
    cbn [contains bind item].
    destruct (assoc "preview_url" d); cbn [bind]; eexists; split; reflexivity.
Qed.

(** C7. The first input given, in the order catalog-track link, video
    link, free-text query, is the one [validate_song] acts on, and whenever
    it is one of the two links nothing else in the body counts. For a
    catalog-track link the catalog is asked about that link: a failure
    gives 400 ["Invalid Spotify link"], and a resolved track ends in the
    [KeyError] of C2. For a video link the extraction tool is asked about
    that link: its answer gives 200 with [source = "youtube"], a failure 400
    ["Invalid YouTube link"]. Two bodies with the same first input get the
    same outcome, whatever the inputs further down the order, [page] and
    any other field are. An input counts as given when the body has a value
    for it that Python takes as true, the test of the handler. *)
Theorem validate_song_first_present_only (d1 d2 : list (string * value))
    (k : string) (v : value) :
  first_present d1 = Some (k, v) ->
  first_present d2 = Some (k, v) ->
  k <> "song_name" ->
  validate_song (VDict d1) = validate_song (VDict d2) /\
  ((k = "spotify_link" /\
    validate_song (VDict d1) =
      match get_spotify_track_info v with
      | Raise _ => Ok (Json 400 (error_body "Invalid Spotify link"))
      | Ok _ => Raise (KeyError "name")
      end)
   \/
   (k = "youtube_link" /\
    validate_song (VDict d1) =
      match ydl_extract_info QuietOpts v false with
      | Ok (VDict info) =>
          Ok (Json 200 (VDict [("full_name", field info "title");
                               ("preview_image", field info "thumbnail");
                               ("duration", field info "duration");
                               ("preview_url", field info "url");
                               ("source", VStr "youtube")]))
      | _ => Ok (Json 400 (error_body "Invalid YouTube link"))
      end)).
Proof.
  unfold first_present. intros F1 F2 K.
  destruct (truthy (field d1 "spotify_link")) eqn:S1.
  - inv F1.
    destruct (truthy (field d2 "spotify_link")) eqn:S2.
    + inv F2. rewrite !spotify_branch by assumption. rewrite H0.
      split; [ reflexivity | left; split; reflexivity ].
    + destruct (truthy (field d2 "youtube_link"));
        [ | destruct (truthy (field d2 "song_name")) ]; discriminate.
  - destruct (truthy (field d1 "youtube_link")) eqn:Y1.
    + inv F1.
      destruct (truthy (field d2 "spotify_link")) eqn:S2; [ discriminate | ].
      destruct (truthy (field d2 "youtube_link")) eqn:Y2.
      * inv F2. rewrite !youtube_branch by assumption. rewrite H0.
        split; [ reflexivity | right; split; [ reflexivity | ] ].
        destruct (ydl_extract_info QuietOpts (field d1 "youtube_link") false)
          as [[] |]; reflexivity.
      * destruct (truthy (field d2 "song_name")); discriminate.
    + destruct (truthy (field d1 "song_name")); inv F1. now elim K.
Qed.

(** C8. A request whose body gives none of [spotify_link], [youtube_link]
    and [song_name] (each is missing, [null] or empty) gets the JSON error
    ["No valid song link or name provided"] with status 400. *)
Theorem validate_song_missing_input (d : list (string * value)) :
  truthy (field d "spotify_link") = false ->
  truthy (field d "youtube_link") = false ->
  truthy (field d "song_name") = false ->
  validate_song (VDict d) =
    Ok (Json 400 (error_body "No valid song link or name provided")).
Proof.
  intros T1 T2 T3. unfold validate_song. rewrite !get_field. cbn [get bind].
  rewrite T1, T2, T3. reflexivity.
Qed.

(** C9. In every option of the [song_options] that [validate_song] returns,
    [preview_url] and [youtube_link] are the same value, the [url] of the
    search entry. *)
Theorem song_options_preview_is_link (data : value) (status : Z)
    (body : value) (song_options : list value) :
  validate_song data = Ok (Json status body) ->
  item body "song_options" = Ok (VList song_options) ->
  Forall (fun option =>
            item option "preview_url" = item option "youtube_link" /\
            exists url, item option "youtube_link" = Ok url)
         song_options.
Proof.
  intros V B.
  destruct (song_options_origin _ _ _ _ V B)
    as (name & page & results & more & entries & _ & _ & M).
  exact (song_options_urls _ _ M).
Qed.

(** ** The playlist expander, [/get_playlist_songs] *)

(** C10. A request whose body has no [playlist_link], or [null] for it, gets
    the JSON error ["Invalid Spotify playlist link"] with status 400: the
    [split] on [None] fails inside the [try] that also holds the call to the
    catalog. *)
Theorem get_playlist_songs_missing_link (d : list (string * value)) :
  assoc "playlist_link" d = None \/ assoc "playlist_link" d = Some VNone ->
  get_playlist_songs (VDict d) =
    Ok (Json 400 (error_body "Invalid Spotify playlist link")).
Proof.
  intro A.
  assert (F : field d "playlist_link" = VNone)
    by (unfold field; destruct A as [-> | ->]; reflexivity).
  unfold get_playlist_songs. rewrite get_field. cbn [bind].
  rewrite F. reflexivity.
Qed.

(** ** The download orchestrator, [/download_songs] *)

(** C3. A failure of the extraction tool on one name should leave the other
    names to be processed. In [download_songs] nothing catches the exception
    of the tool: when it raises for one name of the list, the request as a
    whole ends in an exception and no list of files is returned. *)
Theorem download_songs_failure_aborts (before : list value) (song : value)
    (rest : list value) (e : exn) :
  ydl_extract_info (DownloadOpts DOWNLOAD_FOLDER)
    (VStr ("ytsearch:" ++ py_str song)) true = Raise e ->
  exists e',
    download_songs (VDict [("songs", VList (before ++ song :: rest))]) = Raise e'.
Proof.
  intro F. unfold download_songs.
  change (get (VDict [("songs", VList (before ++ song :: rest))]) "songs" VNone)
    with (Ok (VList (before ++ song :: rest)) : result value).
  cbn [bind iter].
  destruct (download_loop_raises before song rest [] e F) as [e' L].
  rewrite L. cbn. eauto.
Qed.

End HandlerProperties.

(** ** Paths: splitting, normalising, joining *)

Section PathProperties.

Import Posix Confinement.

Lemma split_on_nonempty (c : ascii) (s : string) : split_on c s <> [].
Proof.
  destruct s as [| a s]; cbn; [ discriminate | ].
  destruct (Ascii.eqb a c); [ discriminate | ].
  destruct (split_on c s); discriminate.
Qed.

Lemma split_on_app (c : ascii) (a b : string) :
  split_on c (a ++ String c b) = (split_on c a ++ split_on c b)%list.
Proof.
  induction a as [| x a IH]; cbn.
  - now rewrite Ascii.eqb_refl.
  - destruct (Ascii.eqb x c); rewrite IH; [ reflexivity | ].
    destruct (split_on c a) eqn:E; [ | reflexivity ].
    now destruct (split_on_nonempty c a).
Qed.

Lemma split_on_sep_free (s : string) :
  sep_free s = true -> split_on sep s = [s].
Proof.
  induction s as [| x s IH]; cbn; [ reflexivity | ].
  intro H. apply andb_true_iff in H. destruct H as [Hx Hs].
  apply negb_true_iff in Hx. rewrite Hx, (IH Hs). reflexivity.
Qed.

Lemma split_on_components (s : string) :
  Forall (fun c => sep_free c = true) (split_on sep s).
Proof.
  induction s as [| x s IH]; cbn.
  - constructor; [ reflexivity | constructor ].
  - destruct (Ascii.eqb x sep) eqn:E.
    + constructor; [ reflexivity | exact IH ].
    + destruct (split_on sep s) as [| w ws]; inv IH.
      * constructor; [ cbn; now rewrite E | constructor ].
      * constructor; [ cbn; rewrite E; assumption | assumption ].
Qed.

Lemma split_on_concat (comps : list string) :
  comps <> [] ->
  Forall (fun c => sep_free c = true) comps ->
  split_on sep (String.concat "/" comps) = comps.
Proof.
  induction comps as [| x l IH]; [ contradiction | ].
  intros _ F. inv F. destruct l as [| y l].
  - now apply split_on_sep_free.
  - change (String.concat "/" (x :: y :: l))
      with (x ++ String sep (String.concat "/" (y :: l)))%string.
    rewrite split_on_app, split_on_sep_free by assumption.
    rewrite IH by (assumption || discriminate). reflexivity.
Qed.

Lemma plain_inv (c : string) :
  plain c = true ->
  (c =? "")%string = false /\ (c =? ".")%string = false /\
  (c =? "..")%string = false /\ sep_free c = true.
Proof.
  unfold plain. intro H.
  apply andb_true_iff in H. destruct H as [H F].
  apply negb_true_iff in H.
  apply orb_false_iff in H. destruct H as [H H2].
  apply orb_false_iff in H. destruct H as [H0 H1]. auto.
Qed.

Lemma comp_cases (c : string) :
  sep_free c = true -> c = "" \/ c = "." \/ c = ".." \/ plain c = true.
Proof.
  intro F. unfold plain. rewrite F.
  destruct (String.eqb_spec c ""); [ auto | ].
  destruct (String.eqb_spec c "."); [ auto | ].
  destruct (String.eqb_spec c ".."); auto.
Qed.

Lemma snoc_cases (A : Type) (l : list A) :
  l = [] \/ exists l' x, l = (l' ++ [x])%list.
Proof.
  destruct l as [| a l]; [ now left | right ].
  destruct (@exists_last _ (a :: l)) as (l' & x & E); [ discriminate | eauto ].
Qed.

Lemma last_repeat (x d : string) (k : nat) : last (repeat x (Datatypes.S k)) d = x.
Proof.
  induction k as [| k IH]; [ reflexivity | ].
  change (repeat x (Datatypes.S (Datatypes.S k)))
    with (x :: repeat x (Datatypes.S k)).
  cbn [last]. exact IH.
Qed.

Lemma enter_skip (loc : location) (c : string) :
  c = "" \/ c = "." -> enter loc c = loc.
Proof. intros [-> | ->]; now destruct loc. Qed.

Lemma enter_plain (loc : location) (c : string) :
  plain c = true ->
  enter loc c =
    match loc with
    | Absolute => Absolute
    | Relative up stack => Relative up (c :: stack)
    end.
Proof.
  intro P. destruct (plain_inv _ P) as (H0 & H1 & H2 & _).
  destruct loc; cbn; [ reflexivity | ]. now rewrite H0, H1, H2.
Qed.

Lemma enter_plain_then_up (loc : location) (c : string) :
  plain c = true -> enter (enter loc c) ".." = loc.
Proof.
  intro P. rewrite (enter_plain _ _ P). now destruct loc.
Qed.

(** one turn of the loop of [normpath], on a relative path: the shape is
    kept, and the kept components lead where the path read so far leads *)
Lemma norm_step_spec (acc : list string) (c : string) (loc : location) :
  normal acc ->
  sep_free c = true ->
  normal (norm_step 0 acc c) /\
  fold_left enter (norm_step 0 acc c) loc = enter (fold_left enter acc loc) c.
Proof.
  intros (k & names & -> & Hn) F.
  destruct (comp_cases _ F) as [-> | [-> | [-> | P]]].
  - split; [ now exists k, names | ]. cbn. now rewrite enter_skip by auto.
  - split; [ now exists k, names | ]. cbn. now rewrite enter_skip by auto.
  - destruct (snoc_cases _ names) as [-> | (names' & x & ->)].
    + (* nothing to step back over: one more [".."] *)
      rewrite app_nil_r.
      assert (E : norm_step 0 (repeat ".." k) ".." = (repeat ".." k ++ [".."])%list).
      { unfold norm_step. destruct k as [| k]; [ reflexivity | ].
        rewrite last_repeat. reflexivity. }
      rewrite E. split.
      * exists (Datatypes.S k), []. split; [ | constructor ].
        rewrite app_nil_r. cbn [repeat]. now rewrite repeat_cons.
      * now rewrite fold_left_app.
    + (* the last name is dropped *)
      apply Forall_app in Hn. destruct Hn as [Hn Hx]. inv Hx.
      destruct (plain_inv _ H1) as (_ & _ & Hdd & _).
      rewrite app_assoc.
      assert (E : norm_step 0 ((repeat ".." k ++ names') ++ [x]) ".."
                  = (repeat ".." k ++ names')%list).
      { unfold norm_step. rewrite last_last, Hdd.
        destruct ((repeat ".." k ++ names') ++ [x])%list eqn:A.
        - now destruct (repeat ".." k ++ names')%list.
        - rewrite <- A. cbn. now rewrite removelast_last. }
      rewrite E. split; [ now exists k, names' | ].
      rewrite !fold_left_app. cbn [fold_left].
      now rewrite enter_plain_then_up.
  - destruct (plain_inv _ P) as (H0 & H1 & H2 & _).
    assert (E : norm_step 0 (repeat ".." k ++ names) c
                = ((repeat ".." k ++ names) ++ [c])%list).
    { unfold norm_step. now rewrite H0, H1, H2. }
    rewrite E. split.
    + exists k, (names ++ [c])%list. split; [ now rewrite app_assoc | ].
      apply Forall_app. split; [ assumption | now constructor ].
    + now rewrite fold_left_app.
Qed.

Lemma norm_loop_spec (comps acc : list string) (loc : location) :
  normal acc ->
  Forall (fun c => sep_free c = true) comps ->
  normal (fold_left (norm_step 0) comps acc) /\
  fold_left enter (fold_left (norm_step 0) comps acc) loc
  = fold_left enter comps (fold_left enter acc loc).
Proof.
  revert acc. induction comps as [| c comps IH]; intros acc N F; cbn.
  - auto.
  - inv F. destruct (norm_step_spec _ _ loc N H1) as [N' E].
    destruct (IH _ N' H2) as [N'' E']. split; [ assumption | ].
    now rewrite E', E.
Qed.

Lemma normal_nil : normal [].
Proof. exists 0%nat, []. split; [ reflexivity | constructor ]. Qed.

Lemma normal_head (nc : list string) :
  normal nc ->
  nc = [] \/ (exists l, nc = ".." :: l) \/
  (nc <> [] /\ Forall (fun c => plain c = true) nc).
Proof.
  intros ([| k] & names & -> & Hn); cbn.
  - destruct names; [ now left | right; right ]. split; [ discriminate | assumption ].
  - right; left. eauto.
Qed.

Lemma plain_sep_free (l : list string) :
  Forall (fun c => plain c = true) l -> Forall (fun c => sep_free c = true) l.
Proof.
  intro F. eapply Forall_impl; [ | exact F ].
  intros c P. now destruct (plain_inv _ P) as (_ & _ & _ & H).
Qed.

Lemma concat_cons_nonempty (x : string) (l : list string) :
  x <> "" -> String.concat "/" (x :: l) <> "".
Proof.
  intro N. destruct l as [| y l]; cbn [String.concat]; [ assumption | ].
  destruct x; [ contradiction | discriminate ].
Qed.

Lemma concat_dotdot (l : list string) :
  String.concat "/" (".." :: l) = ".." \/
  startswith "../" (String.concat "/" (".." :: l)) = true.
Proof.
  destruct l as [| y l]; [ now left | right ].
  change (String.concat "/" (".." :: y :: l))
    with (String "." (String "." (String "/" (String.concat "/" (y :: l))))).
  now destruct (String.concat "/" (y :: l)).
Qed.

Lemma walk_plain (names : list string) (up : nat) (stack : list string) :
  Forall (fun c => plain c = true) names ->
  fold_left enter names (Relative up stack) = Relative up (rev names ++ stack)%list.
Proof.
  revert stack. induction names as [| c names IH]; intros stack F; cbn [fold_left].
  - reflexivity.
  - inv F. rewrite (enter_plain _ _ H1), (IH _ H2). cbn [rev].
    now rewrite <- app_assoc.
Qed.

Lemma normpath_absolute (f : string) :
  startswith "/" f = true -> startswith "/" (normpath f) = true.
Proof.
  intro A. unfold normpath. destruct f as [| c t]; [ discriminate | ].
  cbn [String.eqb]. rewrite A.
  set (kept := String.concat "/" _).
  destruct (startswith "//" (String c t) && negb (startswith "///" (String c t)));
    cbn [repeat_string append String.eqb]; now destruct kept.
Qed.

Lemma normpath_relative (f : string) :
  f <> "" ->
  startswith "/" f = false ->
  exists nc,
    normal nc /\
    (forall loc, fold_left enter nc loc = fold_left enter (split_on sep f) loc) /\
    normpath f =
      if (String.concat "/" nc =? "")%string then "." else String.concat "/" nc.
Proof.
  intros N R. exists (fold_left (norm_step 0) (split_on sep f) []).
  destruct (norm_loop_spec (split_on sep f) [] (Relative 0 []) normal_nil
              (split_on_components f)) as [Hn _].
  split; [ assumption | split ].
  - intro loc.
    now destruct (norm_loop_spec (split_on sep f) [] loc normal_nil
                    (split_on_components f)) as [_ E].
  - unfold normpath. apply String.eqb_neq in N. rewrite N, R. reflexivity.
Qed.

(** joining a relative name to the download folder, then reading the path *)
Lemma resolve_join_relative (g : string) :
  startswith "/" g = false ->
  join DOWNLOAD_FOLDER g = (DOWNLOAD_FOLDER ++ String sep g)%string /\
  resolve (join DOWNLOAD_FOLDER g)
  = fold_left enter (split_on sep g) (Relative 0 [DOWNLOAD_FOLDER]).
Proof.
  intro R.
  assert (J : join DOWNLOAD_FOLDER g = (DOWNLOAD_FOLDER ++ String sep g)%string).
  { unfold join. rewrite R. reflexivity. }
  split; [ exact J | ].
  rewrite J. unfold resolve.
  change (isabs (DOWNLOAD_FOLDER ++ String sep g)) with false.
  rewrite split_on_app, fold_left_app. reflexivity.
Qed.

(** What [safe_join] lets through stays in the download folder: the path it
    returns leads where the joined path leads, and that is inside. *)
Lemma safe_join_confined (f p : string) :
  safe_join DOWNLOAD_FOLDER f = Some p ->
  resolve p = resolve (join DOWNLOAD_FOLDER f) /\
  inside DOWNLOAD_FOLDER (resolve p) = true.
Proof.
  unfold safe_join. change (DOWNLOAD_FOLDER =? "")%string with false. cbv iota.
  destruct (String.eqb_spec f "") as [-> | N]; cbn [negb].
  - intro H. inv H. split; reflexivity.
  - destruct (isabs (normpath f) || startswith "/" (normpath f)
              || (normpath f =? "..")%string || startswith "../" (normpath f))
      eqn:C; [ discriminate | ].
    intro H. inv H.
    apply orb_false_iff in C. destruct C as [C C3].
    apply orb_false_iff in C. destruct C as [C C2].
    apply orb_false_iff in C. destruct C as [_ C1].
    destruct (startswith "/" f) eqn:R.
    { rewrite (normpath_absolute f R) in C1. discriminate. }
    destruct (normpath_relative f N R) as (nc & Hn & W & E).
    destruct (resolve_join_relative f R) as [_ Rf].
    destruct (resolve_join_relative (normpath f) C1) as [_ Rn].
    rewrite Rn, Rf.
    destruct (normal_head nc Hn) as [-> | [(l & ->) | (Hne & P)]].
    + (* nothing is kept: the path is ["."] *)
      cbn in E. rewrite E. rewrite <- W. split; reflexivity.
    + (* a leading [".."] does not pass the test *)
      exfalso.
      assert (D : String.concat "/" (".." :: l) <> "")
        by (apply concat_cons_nonempty; discriminate).
      apply String.eqb_neq in D. rewrite D in E. rewrite E in C2, C3.
      destruct (concat_dotdot l) as [K | K].
      * rewrite K in C2. discriminate.
      * rewrite K in C3. discriminate.
    + (* names only *)
      assert (D : String.concat "/" nc <> "").
      { destruct nc as [| x l]; [ contradiction | ].
        apply concat_cons_nonempty. inv P.
        destruct (plain_inv _ H1) as (H0 & _). now apply String.eqb_neq. }
      apply String.eqb_neq in D. rewrite D in E. rewrite E.
      rewrite (split_on_concat nc Hne (plain_sep_free nc P)).
      rewrite <- W. split; [ reflexivity | ].
      rewrite (walk_plain nc 0 [DOWNLOAD_FOLDER] P). cbn [inside].
      rewrite rev_app_distr, rev_involutive. reflexivity.
Qed.

End PathProperties.

(** ** File delivery, [/download_file/<filename>] *)

Section DiskProperties.

Import Posix Confinement Disk.

Lemma is_file_unlink (fs : filesystem) (p : string) :
  is_file (unlink fs p) p = false.
Proof.
  unfold is_file, unlink. induction fs as [| q fs IH]; cbn; [ reflexivity | ].
  destruct (String.eqb_spec q p) as [-> | N]; cbn; [ exact IH | ].
  apply String.eqb_neq in N. now rewrite N.
Qed.

(** the handler on a name [safe_join] turns down *)
Lemma download_file_rejected (fs : filesystem) (filename : string) :
  safe_join DOWNLOAD_FOLDER filename = None ->
  download_file fs filename = (Json 404 (error_body "File not found"), []).
Proof. intro J. unfold download_file. now rewrite J. Qed.

(** the handler on a name [safe_join] lets through *)
Lemma download_file_joined (fs : filesystem) (filename p : string) :
  safe_join DOWNLOAD_FOLDER filename = Some p ->
  download_file fs filename =
    if is_file fs p then (Attachment p [OsRemove p], [EvStat p; EvOpen p])
    else (Json 404 (error_body "File not found"), [EvStat p]).
Proof.
  intro J. unfold download_file. rewrite J. cbn [send_file].
  now destruct (is_file fs p).
Qed.

(** C1. A file name whose join with the download folder leads out of that
    folder (through [".."], or because it is absolute) is answered with the
    JSON error ["File not found"] and status 404 before the disk is looked
    at; and whatever the file name, every path a request looks up, opens or
    removes, up to and including the callbacks run when the response is
    closed, lies inside the download folder. *)
Theorem download_file_confined :
  (forall fs filename,
      escapes DOWNLOAD_FOLDER filename = true ->
      download_file fs filename = (Json 404 (error_body "File not found"), []))
  /\ (forall d filename kind how d' response events e p,
      serve_download d filename kind how = (d', response, events) ->
      In e events ->
      touched e = Some p ->
      inside DOWNLOAD_FOLDER (resolve p) = true).
Proof.
  split.
  - intros fs filename X.
    destruct (safe_join DOWNLOAD_FOLDER filename) as [p |] eqn:J.
    + destruct (safe_join_confined filename p J) as [R I].
      unfold escapes in X. rewrite <- R, I in X. discriminate.
    + now apply download_file_rejected.
  - intros d filename kind how d' response events e p V I T.
    unfold serve_download in V.
    destruct (safe_join DOWNLOAD_FOLDER filename) as [q |] eqn:J.
    + destruct (safe_join_confined filename q J) as [_ Q].
      rewrite (download_file_joined (root_files d) filename q J) in V.
      destruct (is_file (root_files d) q); destruct kind; cbn in V; inv V;
        cbn in I;
        repeat match goal with
               | H : _ \/ _ |- _ => destruct H as [<- | H]
               | H : False |- _ => contradiction
               end; cbn in T; inv T; assumption.
    + rewrite (download_file_rejected (root_files d) filename J) in V.
      inv V. contradiction.
Qed.

(** C5. The file a [GET] delivers should be removed once the transfer is
    over, so that the same request then gets 404. The handler does register
    [os.remove] with [call_on_close], but the response of [send_file] goes
    to the server as the open file itself: the response is never closed and
    the callback does not run. After the delivery, completed or cut short by
    the client, nothing was removed, the disk is as it was, and the same
    request delivers the file once more. *)
Theorem delivered_file_is_not_removed (d : state) (filename p : string)
    (on_close : list cleanup) (events : list event) (how : transfer) :
  download_file (root_files d) filename = (Attachment p on_close, events) ->
  on_close = [OsRemove p]
  /\ is_file (root_files d) p = true
  /\ serve_download d filename Get how =
       (d, Attachment p on_close, (events ++ [EvTransferEnd how])%list)
  /\ ~ In (EvRemove p) (events ++ [EvTransferEnd how])%list
  /\ (forall d' response events',
        serve_download d filename Get how = (d', response, events') ->
        d' = d /\
        download_file (root_files d') filename = (Attachment p on_close, events)).
Proof.
  intro D.
  assert (V : serve_download d filename Get how =
              (d, Attachment p on_close, (events ++ [EvTransferEnd how])%list)).
  { unfold serve_download. now rewrite D. }
  destruct (safe_join DOWNLOAD_FOLDER filename) as [q |] eqn:J.
  - pose proof (download_file_joined (root_files d) filename q J) as D'.
    rewrite D in D'. destruct (is_file (root_files d) q) eqn:F; inv D'.
    split; [ reflexivity | ].
    split; [ assumption | ].
    split; [ exact V | ].
    split; [ intros [H | [H | [H | []]]]; discriminate H | ].
    intros d' response events' V'. rewrite V in V'. inv V'.
    split; [ reflexivity | exact D ].
  - rewrite (download_file_rejected (root_files d) filename J) in D.
    discriminate.
Qed.

End DiskProperties.

(** * The handlers run on the stub collaborators *)

Section Runs.

Import Posix Confinement Disk.

Lemma download_file_confined_witness :
  escapes DOWNLOAD_FOLDER "../../etc/passwd" = true /\
  download_file Sample.disk "../../etc/passwd"
  = (Json 404 (error_body "File not found"), []) /\
  inside DOWNLOAD_FOLDER (resolve "downloads/Take 1.mp3") = true.
Proof.
  destruct download_file_confined as [A B].
  split; [ reflexivity | split ].
  - apply A. reflexivity.
  - apply (B Sample.one_directory "Take 1.mp3" Head Completed
             {| root_files := ["downloads/So What.mp3"]; cwd_files := None |}
             (Attachment "downloads/Take 1.mp3" [OsRemove "downloads/Take 1.mp3"])
             [EvStat "downloads/Take 1.mp3"; EvOpen "downloads/Take 1.mp3";
              EvRemove "downloads/Take 1.mp3"]
             (EvRemove "downloads/Take 1.mp3")).
    + reflexivity.
    + cbn. tauto.
    + reflexivity.
Defined.

Lemma validate_song_spotify_success_raises_witness :
  validate_song (S := Sample.services) (VDict Sample.link_only)
  = Raise (KeyError "name").
Proof.
  apply (validate_song_spotify_success_raises (S := Sample.services)
           Sample.link_only Sample.metadata);
    reflexivity.
Defined.

(** the request of the specification's example, a failure for ["a"] and a
    success for ["b"], evaluated *)
Lemma download_songs_a_b_raises :
  download_songs (S := Sample.services)
    (VDict [("songs", VList [VStr "a"; VStr "b"])])
  = Raise (ServiceError "DownloadError").
Proof. reflexivity. Qed.

Lemma download_songs_failure_aborts_witness :
  exists e,
    download_songs (S := Sample.services) (VDict [("songs", VList [VStr "a"; VStr "b"])])
    = Raise e.
Proof.
  apply (download_songs_failure_aborts (S := Sample.services) [] (VStr "a") [VStr "b"]
           (ServiceError "DownloadError")).
  reflexivity.
Defined.

Lemma search_youtube_songs_page_witness :
  search_youtube_songs (S := Sample.services) (VStr "take five") (VInt 2)
  = Ok (VList [Sample.entry "6"; Sample.entry "7"], VBool false).
Proof.
  destruct (search_youtube_songs_page (S := Sample.services) (VStr "take five") 2
              (VDict [("entries", VList Sample.entries)]) Sample.entries
              eq_refl eq_refl) as (R & _ & W & _).
  rewrite R, (W ltac:(lia)). reflexivity.
Defined.

Lemma duration_is_ms_div_1000_witness :
  (exists metadata,
      get_spotify_track_info (S := Sample.services) Sample.spotify_link = Ok metadata /\
      item metadata "duration" = Ok (VInt (562999 / 1000)))
  /\ (exists track_info duration_ms ms,
      sp_track (Services := Sample.services) Sample.spotify_link = Ok track_info /\
      item track_info "duration_ms" = Ok duration_ms /\
      as_int duration_ms = Some ms /\
      item Sample.metadata "duration" = Ok (VInt (ms / 1000)))
  /\ (exists track duration_ms ms,
      item (VDict [("track", Sample.track)]) "track" = Ok track /\
      item track "duration_ms" = Ok duration_ms /\
      as_int duration_ms = Some ms /\
      item (VDict [("full_name", VStr "So What");
                   ("artist", VStr "Miles Davis");
                   ("preview_image", VStr "https://i.scdn.co/image/kob");
                   ("duration", VInt 562);
                   ("preview_url", VNone)]) "duration" = Ok (VInt (ms / 1000))).
Proof.
  destruct (duration_is_ms_div_1000 (S := Sample.services)) as (A & B & C).
  split; [ | split ].
  - apply (C Sample.spotify_link Sample.track (VStr "So What")
             (VDict [("images", VList [Sample.image "https://i.scdn.co/image/kob"])])
             [] (Sample.image "https://i.scdn.co/image/kob")
             (VStr "https://i.scdn.co/image/kob") 562999);
      reflexivity.
  - apply (A Sample.spotify_link Sample.metadata). reflexivity.
  - apply (B (VDict [("track", Sample.track)])). reflexivity.
Defined.

Lemma validate_song_first_present_only_witness :
  (validate_song (S := Cases.fixed Cases.silent Cases.silent (Ok Cases.video))
     (VDict [("song_name", VStr "so what");
             ("youtube_link", Sample.youtube_link);
             ("page", VInt 3)])
   = validate_song (S := Cases.fixed Cases.silent Cases.silent (Ok Cases.video))
       (VDict [("youtube_link", Sample.youtube_link)])
   /\
   validate_song (S := Cases.fixed Cases.silent Cases.silent (Ok Cases.video))
     (VDict [("song_name", VStr "so what");
             ("youtube_link", Sample.youtube_link);
             ("page", VInt 3)])
   = Ok (Json 200 (VDict [("full_name", VStr "Flamenco Sketches");
                          ("preview_image", VStr "https://i.ytimg.com/vi/fs/hq.jpg");
                          ("duration", VInt 566);
                          ("preview_url", VNone);
                          ("source", VStr "youtube")])))
  /\
  (validate_song (S := Cases.fixed Cases.silent Cases.silent (Ok Cases.video))
     (VDict Sample.all_inputs)
   = validate_song (S := Cases.fixed Cases.silent Cases.silent (Ok Cases.video))
       (VDict Sample.link_only)
   /\
   validate_song (S := Cases.fixed Cases.silent Cases.silent (Ok Cases.video))
     (VDict Sample.all_inputs)
   = Ok (Json 400 (error_body "Invalid Spotify link"))).
Proof.
  split.
  - destruct (validate_song_first_present_only
                (S := Cases.fixed Cases.silent Cases.silent (Ok Cases.video))
                [("song_name", VStr "so what");
                 ("youtube_link", Sample.youtube_link);
                 ("page", VInt 3)]
                [("youtube_link", Sample.youtube_link)]
                "youtube_link" Sample.youtube_link eq_refl eq_refl)
      as [Same [[K _] | [_ Honoured]]];
      [ discriminate | discriminate K | split; [ exact Same | exact Honoured ] ].
  - destruct (validate_song_first_present_only
                (S := Cases.fixed Cases.silent Cases.silent (Ok Cases.video))
                Sample.all_inputs Sample.link_only
                "spotify_link" Sample.spotify_link eq_refl eq_refl)
      as [Same [[_ Honoured] | [K _]]];
      [ discriminate | split; [ exact Same | exact Honoured ] | discriminate K ].
Defined.

Lemma validate_song_missing_input_witness :
  validate_song (S := Sample.services) (VDict [("page", VInt 2); ("song_name", VStr "")])
  = Ok (Json 400 (error_body "No valid song link or name provided")).
Proof.
  apply validate_song_missing_input; reflexivity.
Defined.

Lemma song_options_preview_is_link_witness :
  Forall (fun option =>
            item option "preview_url" = item option "youtube_link" /\
            exists url, item option "youtube_link" = Ok url)
         (map Sample.option_of ["1"; "2"; "3"; "4"; "5"]).
Proof.
  apply (song_options_preview_is_link (S := Sample.services)
           (VDict [("song_name", VStr "take five")]) 200
           (VDict [("song_options", VList (map Sample.option_of ["1"; "2"; "3"; "4"; "5"]));
                   ("has_more", VBool true)]));
    reflexivity.
Defined.

Lemma get_playlist_songs_missing_link_witness :
  get_playlist_songs (S := Sample.services) (VDict [("playlist_link", VNone)])
  = Ok (Json 400 (error_body "Invalid Spotify playlist link")).
Proof.
  apply get_playlist_songs_missing_link. right. reflexivity.
Defined.

Lemma delivered_file_is_not_removed_witness :
  serve_download Sample.one_directory "Take 1.mp3" Get ClientAborted
  = (Sample.one_directory,
     Attachment "downloads/Take 1.mp3" [OsRemove "downloads/Take 1.mp3"],
     [EvStat "downloads/Take 1.mp3"; EvOpen "downloads/Take 1.mp3";
      EvTransferEnd ClientAborted])
  /\ download_file (root_files Sample.one_directory) "Take 1.mp3"
     = (Attachment "downloads/Take 1.mp3" [OsRemove "downloads/Take 1.mp3"],
        [EvStat "downloads/Take 1.mp3"; EvOpen "downloads/Take 1.mp3"]).
Proof.
  destruct (delivered_file_is_not_removed Sample.one_directory "Take 1.mp3"
              "downloads/Take 1.mp3" [OsRemove "downloads/Take 1.mp3"]
              [EvStat "downloads/Take 1.mp3"; EvOpen "downloads/Take 1.mp3"]
              ClientAborted eq_refl) as (_ & _ & V & _ & Again).
  split; [ exact V | ].
  exact (proj2 (Again _ _ _ V)).
Defined.

End Runs.

(** * Further properties of the handlers *)

(** ** The song resolver: the video-link and free-text branches *)

Section ResolverProperties.

Context {S : Services}.

Lemma get_page (d : list (string * value)) :
  get (VDict d) "page" (VInt 1) = Ok (page_field d).
Proof. reflexivity. Qed.

(** the free-text branch: a search, then one option for each result *)
Lemma free_text_branch (d : list (string * value)) :
  truthy (field d "spotify_link") = false ->
  truthy (field d "youtube_link") = false ->
  truthy (field d "song_name") = true ->
  validate_song (VDict d) =
    ('(youtube_results, has_more) <-
        search_youtube_songs (field d "song_name") (page_field d) ;;
     if truthy youtube_results then
       entries <- iter youtube_results ;;
       song_options <- mapM song_option entries ;;
       Ok (Json 200 (VDict [("song_options", VList song_options);
                            ("has_more", has_more)]))
     else Ok no_valid_input).
Proof.
  intros T1 T2 T3. unfold validate_song.
  rewrite !get_field, get_page. cbn [bind].
  rewrite T1, T2, T3. reflexivity.
Qed.

(** the search for an integer page, on an answer that lists its entries *)
Lemma search_entries (song_name : value) (page : Z) (search_result : value)
    (entries : list value) :
  ydl_extract_info SearchOpts
    (VStr ("ytsearch" ++ py_str (VInt (5 * page)) ++ ":" ++ py_str song_name))
    false = Ok search_result ->
  item search_result "entries" = Ok (VList entries) ->
  search_youtube_songs song_name (VInt page) =
    Ok (VList (slice_list entries ((page - 1) * 5) ((page - 1) * 5 + 5)),
        VBool ((page - 1) * 5 + 5 <? Z.of_nat (List.length entries))).
Proof.
  intros Q E. unfold search_youtube_songs. cbn [mul as_int bind]. rewrite Q.
  cbn [bind]. destruct (item_dict_inv _ _ _ E) as (i & -> & A).
  cbn [contains bind]. rewrite A. cbn [sub mul add as_int bind item].
  rewrite A. reflexivity.
Qed.

Lemma mapM_raise (A B : Type) (f : A -> result B) (before : list A) (x : A)
    (after : list A) (ys : list B) (e : exn) :
  mapM f before = Ok ys ->
  f x = Raise e ->
  mapM f (before ++ x :: after) = Raise e.
Proof.
  revert ys. induction before as [| b before IH]; cbn; intros ys M F.
  - now rewrite F.
  - destruct (f b); cbn in *; [ | discriminate ].
    destruct (mapM f before) eqn:M'; cbn in *; [ | discriminate ].
    now rewrite (IH _ eq_refl F).
Qed.

(** X1. With no catalog link and a video link, [validate_song] never
    raises. When the extraction tool answers with an object, the response
    is 200 with the title, thumbnail, duration and url of the answer, [null]
    for a key the answer lacks, and [source = "youtube"]; when the tool
    raises or answers with anything else, it is 400 ["Invalid YouTube
    link"]. *)
Theorem validate_song_youtube_outcome (d : list (string * value)) :
  truthy (field d "spotify_link") = false ->
  truthy (field d "youtube_link") = true ->
  validate_song (VDict d) =
    match ydl_extract_info QuietOpts (field d "youtube_link") false with
    | Ok (VDict info) =>
        Ok (Json 200 (VDict [("full_name", field info "title");
                             ("preview_image", field info "thumbnail");
                             ("duration", field info "duration");
                             ("preview_url", field info "url");
                             ("source", VStr "youtube")]))
    | _ => Ok (Json 400 (error_body "Invalid YouTube link"))
    end.
Proof.
  intros T1 T2. rewrite (youtube_branch d T1 T2).
  destruct (ydl_extract_info QuietOpts (field d "youtube_link") false)
    as [[] |]; reflexivity.
Qed.

(** X2. With a catalog link, [validate_song] answers 400 ["Invalid Spotify
    link"] when the catalog raises, and also when the track it returns has
    an album with no image: the [IndexError] of [images[0]] is caught like
    a failed lookup. *)
Theorem validate_song_spotify_error (d : list (string * value)) :
  truthy (field d "spotify_link") = true ->
  (exists e, sp_track (field d "spotify_link") = Raise e) \/
  (exists track_info full_name album,
      sp_track (field d "spotify_link") = Ok track_info /\
      item track_info "name" = Ok full_name /\
      item track_info "album" = Ok album /\
      item album "images" = Ok (VList [])) ->
  validate_song (VDict d) = Ok (Json 400 (error_body "Invalid Spotify link")).
Proof.
  intros T H. rewrite (spotify_branch d T). unfold get_spotify_track_info.
  destruct H as [[e H] | (t & n & a & H & N & A & I)]; rewrite H; cbn [bind].
  - reflexivity.
  - rewrite N. cbn [bind]. rewrite A. cbn [bind]. rewrite I. reflexivity.
Qed.

(** X3. A free-text search with nothing to show gets the same 400 error as
    a request with no input: when the answer of the tool has no ['entries'],
    and when the page lies beyond the entries it lists (an empty list
    included). *)
Theorem validate_song_no_results (d : list (string * value)) (page : Z)
    (search_result : value) :
  truthy (field d "spotify_link") = false ->
  truthy (field d "youtube_link") = false ->
  truthy (field d "song_name") = true ->
  page_field d = VInt page ->
  ydl_extract_info SearchOpts
    (VStr ("ytsearch" ++ py_str (VInt (5 * page)) ++ ":"
           ++ py_str (field d "song_name")))
    false = Ok search_result ->
  (exists i, search_result = VDict i /\ assoc "entries" i = None) \/
  (exists entries,
      item search_result "entries" = Ok (VList entries) /\
      1 <= page /\ Z.of_nat (List.length entries) <= (page - 1) * 5) ->
  validate_song (VDict d) =
    Ok (Json 400 (error_body "No valid song link or name provided")).
Proof.
  intros T1 T2 T3 P Q H. rewrite (free_text_branch d T1 T2 T3), P.
  destruct H as [(i & -> & A) | (entries & E & Hp & L)].
  - unfold search_youtube_songs. cbn [mul as_int bind]. rewrite Q.
    cbn [bind contains]. rewrite A. reflexivity.
  - rewrite (search_entries _ _ _ _ Q E). cbn [bind].
    rewrite (slice_list_page _ entries page Hp). unfold page_window.
    rewrite skipn_all2 by lia. rewrite firstn_nil. reflexivity.
Qed.

(** X4. A free-text search whose page holds entries that all carry a first
    thumbnail gets 200 with one option for each entry of the page, in the
    order of the entries, and [has_more] telling whether the tool listed
    more than [5 * page] entries. *)
Theorem validate_song_free_text (d : list (string * value)) (page : Z)
    (search_result : value) (entries song_options : list value) :
  truthy (field d "spotify_link") = false ->
  truthy (field d "youtube_link") = false ->
  truthy (field d "song_name") = true ->
  page_field d = VInt page ->
  ydl_extract_info SearchOpts
    (VStr ("ytsearch" ++ py_str (VInt (5 * page)) ++ ":"
           ++ py_str (field d "song_name")))
    false = Ok search_result ->
  item search_result "entries" = Ok (VList entries) ->
  slice_list entries ((page - 1) * 5) (page * 5) <> [] ->
  mapM song_option (slice_list entries ((page - 1) * 5) (page * 5))
  = Ok song_options ->
  validate_song (VDict d) =
    Ok (Json 200
          (VDict [("song_options", VList song_options);
                  ("has_more", VBool (page * 5 <? Z.of_nat (List.length entries)))]))
  /\ Forall2 (fun entry option => song_option entry = Ok option)
       (slice_list entries ((page - 1) * 5) (page * 5)) song_options.
Proof.
  intros T1 T2 T3 P Q E N M.
  split; [ | now apply mapM_Forall2 ].
  rewrite (free_text_branch d T1 T2 T3), P, (search_entries _ _ _ _ Q E).
  replace ((page - 1) * 5 + 5) with (page * 5) by lia. cbn [bind].
  destruct (slice_list entries ((page - 1) * 5) (page * 5)) eqn:W;
    [ contradiction | ].
  cbn [truthy iter bind]. rewrite M. reflexivity.
Qed.

(** X5. One entry of the page without thumbnails brings the whole request
    down: [entry.get('thumbnails')[0]] is outside any [try], and
    [validate_song] raises [TypeError] instead of returning the other
    options. *)
Theorem validate_song_entry_without_thumbnails (d : list (string * value))
    (page : Z) (search_result : value) (entries before after : list value)
    (e : list (string * value)) (options : list value) :
  truthy (field d "spotify_link") = false ->
  truthy (field d "youtube_link") = false ->
  truthy (field d "song_name") = true ->
  page_field d = VInt page ->
  ydl_extract_info SearchOpts
    (VStr ("ytsearch" ++ py_str (VInt (5 * page)) ++ ":"
           ++ py_str (field d "song_name")))
    false = Ok search_result ->
  item search_result "entries" = Ok (VList entries) ->
  slice_list entries ((page - 1) * 5) (page * 5)
  = (before ++ VDict e :: after)%list ->
  mapM song_option before = Ok options ->
  field e "thumbnails" = VNone ->
  validate_song (VDict d) = Raise TypeError.
Proof.
  intros T1 T2 T3 P Q E W M F.
  rewrite (free_text_branch d T1 T2 T3), P, (search_entries _ _ _ _ Q E).
  replace ((page - 1) * 5 + 5) with (page * 5) by lia. cbn [bind]. rewrite W.
  assert (R : mapM song_option (before ++ VDict e :: after) = Raise TypeError).
  { apply (mapM_raise _ _ _ _ _ _ _ _ M).
    unfold song_option. rewrite !get_field. cbn [bind]. now rewrite F. }
  assert (Tr : truthy (VList (before ++ VDict e :: after)) = true)
    by (now destruct before).
  rewrite Tr. cbn [iter bind]. now rewrite R.
Qed.

(** X6. A free-text request whose [page] is [null] or an object raises
    [TypeError] at [limit * page], before the tool is asked anything. *)
Theorem validate_song_bad_page (d : list (string * value)) :
  truthy (field d "spotify_link") = false ->
  truthy (field d "youtube_link") = false ->
  truthy (field d "song_name") = true ->
  page_field d = VNone \/ (exists o, page_field d = VDict o) ->
  validate_song (VDict d) = Raise TypeError.
Proof.
  intros T1 T2 T3 P. rewrite (free_text_branch d T1 T2 T3).
  destruct P as [-> | [o ->]]; reflexivity.
Qed.

(** X7. When the tool keeps to the number of results it was asked for, at
    most [5 * page], [has_more] is false on every page: the count asked for
    is the very bound [has_more] compares the answer with. *)
Theorem has_more_false_within_count (song_name : value) (page : Z)
    (search_result : value) (entries : list value) :
  ydl_extract_info SearchOpts
    (VStr ("ytsearch" ++ py_str (VInt (5 * page)) ++ ":" ++ py_str song_name))
    false = Ok search_result ->
  item search_result "entries" = Ok (VList entries) ->
  Z.of_nat (List.length entries) <= 5 * page ->
  exists results,
    search_youtube_songs song_name (VInt page) = Ok (results, VBool false).
Proof.
  intros Q E L. rewrite (search_entries _ _ _ _ Q E).
  replace ((page - 1) * 5 + 5 <? Z.of_nat (List.length entries)) with false
    by (symmetry; apply Z.ltb_ge; lia).
  eauto.
Qed.

Lemma page_window_of_prefix (A : Type) (l : list A) (a : nat) :
  firstn 5 (skipn a (firstn (a + 5) l)) = firstn 5 (skipn a l).
Proof.
  rewrite skipn_firstn_comm.
  replace (a + 5 - a)%nat with 5%nat by lia.
  rewrite firstn_firstn. reflexivity.
Qed.

Lemma two_windows (A : Type) (l : list A) :
  (firstn 5 l ++ firstn 5 (skipn 5 l))%list = firstn 10 l.
Proof.
  rewrite <- (firstn_skipn 5 (firstn 10 l)).
  rewrite firstn_firstn, skipn_firstn_comm. reflexivity.
Qed.

(** X8. Against a tool that answers a request for [n] results with the
    first [n] of one ranking, two consecutive pages never overlap: page
    [p] is the entries of the ranking at the positions [(p-1)*5 .. p*5-1],
    page [p+1] the five after them, although the second request runs a new
    and larger search. *)
Theorem consecutive_pages_tile (song_name : value) (page : Z)
    (answer next_answer : value) (ranking : list value) :
  1 <= page ->
  ydl_extract_info SearchOpts
    (VStr ("ytsearch" ++ py_str (VInt (5 * page)) ++ ":" ++ py_str song_name))
    false = Ok answer ->
  item answer "entries" = Ok (VList (firstn (Z.to_nat (5 * page)) ranking)) ->
  ydl_extract_info SearchOpts
    (VStr ("ytsearch" ++ py_str (VInt (5 * (page + 1))) ++ ":" ++ py_str song_name))
    false = Ok next_answer ->
  item next_answer "entries"
  = Ok (VList (firstn (Z.to_nat (5 * (page + 1))) ranking)) ->
  exists more next_more,
    search_youtube_songs song_name (VInt page)
    = Ok (VList (page_window ranking page), more) /\
    search_youtube_songs song_name (VInt (page + 1))
    = Ok (VList (page_window ranking (page + 1)), next_more) /\
    (page_window ranking page ++ page_window ranking (page + 1))%list
    = firstn 10 (skipn (Z.to_nat ((page - 1) * 5)) ranking).
Proof.
  intros Hp Q E Q' E'.
  rewrite (search_entries _ _ _ _ Q E), (search_entries _ _ _ _ Q' E').
  rewrite !slice_list_page by lia. unfold page_window.
  remember (Z.to_nat ((page - 1) * 5)) as a eqn:Ea.
  replace (Z.to_nat (5 * page)) with (a + 5)%nat by lia.
  replace (Z.to_nat ((page + 1 - 1) * 5)) with (a + 5)%nat by lia.
  replace (Z.to_nat (5 * (page + 1))) with (a + 5 + 5)%nat by lia.
  rewrite !page_window_of_prefix.
  eexists _, _. split; [ reflexivity | split; [ reflexivity | ] ].
  replace (a + 5)%nat with (5 + a)%nat by lia.
  rewrite <- (skipn_skipn 5 a ranking). apply two_windows.
Qed.

End ResolverProperties.

(** ** The playlist expander *)

Section PlaylistProperties.

Context {S : Services}.

Lemma seq_index_first (A : Type) (x : A) (l : list A) :
  seq_index (x :: l) 0 = Ok x.
Proof.
  unfold seq_index. cbn [Z.ltb Z.compare].
  destruct (Z.leb_spec (Z.of_nat (List.length (x :: l))) 0) as [H | H].
  - cbn [List.length] in H. lia.
  - reflexivity.
Qed.

Lemma seq_index_last (A : Type) (l : list A) (x : A) :
  seq_index (l ++ [x]) (-1) = Ok x.
Proof.
  unfold seq_index. cbn [Z.ltb Z.compare]. rewrite length_app. cbn [List.length].
  set (n := Z.of_nat (List.length l + 1)).
  assert (Hn : n = Z.of_nat (List.length l) + 1) by (unfold n; lia).
  destruct (Z.ltb_spec (-1 + n) 0); [ lia | ].
  destruct (Z.leb_spec n (-1 + n)); [ lia | ]. cbn [orb].
  replace (Z.to_nat (-1 + n)) with (List.length l) by lia.
  rewrite nth_error_app2 by lia. now rewrite Nat.sub_diag.
Qed.

Lemma last_app_nonempty (A : Type) (l1 l2 : list A) (d : A) :
  l2 <> [] -> last (l1 ++ l2) d = last l2 d.
Proof.
  intro N. destruct (snoc_cases _ l2) as [-> | (l & x & ->)]; [ contradiction | ].
  now rewrite app_assoc, !last_last.
Qed.

Lemma char_free_app (c : ascii) (a b : string) :
  char_free c (a ++ b) = char_free c a && char_free c b.
Proof.
  induction a as [| x a IH]; cbn; [ reflexivity | ].
  now rewrite IH, andb_assoc.
Qed.

Lemma split_on_free (c : ascii) (s : string) :
  char_free c s = true -> split_on c s = [s].
Proof.
  induction s as [| x s IH]; cbn; [ reflexivity | ].
  intro H. apply andb_true_iff in H. destruct H as [Hx Hs].
  apply negb_true_iff in Hx. now rewrite Hx, (IH Hs).
Qed.

(** the pieces of a split hold no character the string did not hold, and
    never the separator *)
Lemma split_on_pieces (c c' : ascii) (s : string) :
  c' = c \/ char_free c' s = true ->
  Forall (fun piece => char_free c' piece = true) (split_on c s).
Proof.
  induction s as [| x s IH]; cbn; intro H.
  - constructor; [ reflexivity | constructor ].
  - assert (H' : c' = c \/ char_free c' s = true).
    { destruct H as [H | H]; [ now left | right ].
      now apply andb_true_iff in H. }
    specialize (IH H').
    destruct (Ascii.eqb x c) eqn:E.
    + constructor; [ reflexivity | exact IH ].
    + assert (X : negb (Ascii.eqb x c') = true).
      { destruct H as [-> | H]; [ now rewrite E | ].
        now apply andb_true_iff in H. }
      destruct (split_on c s) as [| w ws]; inv IH.
      * constructor; [ cbn; now rewrite X | constructor ].
      * constructor; [ cbn; now rewrite X | assumption ].
Qed.

Lemma playlist_id_of_string (s : string) :
  playlist_id_of (VStr s) =
    Ok (hd EmptyString (split_on "?" (last (split_on "/" s) EmptyString))).
Proof.
  unfold playlist_id_of. cbn [split bind].
  destruct (snoc_cases _ (split_on "/" s)) as [E | (l & tail & E)].
  - now destruct (split_on_nonempty "/" s).
  - rewrite E, seq_index_last, last_last. cbn [bind].
    destruct (split_on "?" tail) as [| piece pieces] eqn:P.
    + now destruct (split_on_nonempty "?" tail).
    + apply seq_index_first.
Qed.

(** X9. The identifier taken from a playlist link is what stands between the
    last ["/"] and the first ["?"] after it: a link [base/id] and a link
    [base/id?query] both give [id] (the empty identifier for a link that
    ends in ["/"]), as long as the query holds no ["/"]. *)
Theorem playlist_id_of_link (base id query : string) :
  char_free "/" id = true ->
  char_free "?" id = true ->
  char_free "/" query = true ->
  playlist_id_of (VStr (base ++ "/" ++ id)) = Ok id /\
  playlist_id_of (VStr (base ++ "/" ++ id ++ "?" ++ query)) = Ok id.
Proof.
  intros Fs Fq Fquery. rewrite !playlist_id_of_string. split.
  - change (base ++ "/" ++ id)%string with (base ++ String "/" id)%string.
    rewrite split_on_app, last_app_nonempty by apply split_on_nonempty.
    rewrite (split_on_free "/" id Fs). cbn [last].
    now rewrite (split_on_free "?" id Fq).
  - change (base ++ "/" ++ id ++ "?" ++ query)%string
      with (base ++ String "/" (id ++ String "?" query))%string.
    rewrite split_on_app, last_app_nonempty by apply split_on_nonempty.
    assert (F : char_free "/" (id ++ String "?" query) = true).
    { rewrite char_free_app, Fs. cbn. exact Fquery. }
    rewrite (split_on_free "/" _ F). cbn [last].
    rewrite split_on_app, (split_on_free "?" id Fq). reflexivity.
Qed.

(** X10. For a link that is a string the extraction of the identifier never
    fails, and the identifier holds neither ["/"] nor ["?"]; for a link
    that is no string it raises [AttributeError]. *)
Theorem playlist_id_of_clean :
  (forall link, exists id,
      playlist_id_of (VStr link) = Ok id /\
      char_free "/" id = true /\ char_free "?" id = true)
  /\ (forall link, (forall s, link <> VStr s) ->
                  playlist_id_of link = Raise AttributeError).
Proof.
  split.
  - intro link. eexists. split; [ apply playlist_id_of_string | ].
    set (tail := last (split_on "/" link) EmptyString).
    assert (T : char_free "/" tail = true).
    { unfold tail.
      destruct (snoc_cases _ (split_on "/" link)) as [E | (l & x & E)].
      - now destruct (split_on_nonempty "/" link).
      - pose proof (split_on_pieces "/" "/" link (or_introl eq_refl)) as F.
        rewrite E in F. apply Forall_app in F. destruct F as [_ F]. inv F.
        now rewrite E, last_last. }
    pose proof (split_on_pieces "?" "/" tail (or_intror T)) as F1.
    pose proof (split_on_pieces "?" "?" tail (or_introl eq_refl)) as F2.
    destruct (split_on "?" tail) as [| piece pieces].
    + split; reflexivity.
    + inv F1. inv F2. split; assumption.
  - intros link N. destruct link; try reflexivity. now elim (N s).
Qed.

Lemma mapM_In_raise (A B : Type) (f : A -> result B) (l : list A) (x : A)
    (e : exn) :
  In x l -> f x = Raise e -> exists e', mapM f l = Raise e'.
Proof.
  induction l as [| y l IH]; cbn; intros I F; [ contradiction | ].
  destruct (f y) eqn:Fy; cbn; [ | eauto ].
  destruct I as [-> | I]; [ congruence | ].
  destruct (IH I F) as [e' ->]. cbn. eauto.
Qed.

(** X11. [get_playlist_songs] never raises for a body that is a JSON
    object. It answers 400 ["Invalid Spotify playlist link"] or 200, and a
    200 answer lists one song for each item of the playlist the catalog
    returned for the identifier of the link, in the order of the items. *)
Theorem get_playlist_songs_outcome (d : list (string * value)) :
  get_playlist_songs (VDict d)
  = Ok (Json 400 (error_body "Invalid Spotify playlist link"))
  \/ exists playlist_id playlist items playlist_items songs,
      playlist_id_of (field d "playlist_link") = Ok playlist_id /\
      sp_playlist_tracks (VStr playlist_id) = Ok playlist /\
      item playlist "items" = Ok items /\
      iter items = Ok playlist_items /\
      Forall2 (fun playlist_item song => playlist_song playlist_item = Ok song)
        playlist_items songs /\
      get_playlist_songs (VDict d) = Ok (Json 200 (VDict [("songs", VList songs)])).
Proof.
  unfold get_playlist_songs. rewrite get_field. cbn [bind].
  destruct (playlist_id_of (field d "playlist_link")) as [id |] eqn:I;
    cbn [bind try_except]; [ | now left ].
  destruct (sp_playlist_tracks (VStr id)) as [playlist |] eqn:P;
    cbn [bind try_except]; [ | now left ].
  destruct (item playlist "items") as [items |] eqn:It;
    cbn [bind try_except]; [ | now left ].
  destruct (iter items) as [its |] eqn:Its; cbn [bind try_except]; [ | now left ].
  destruct (mapM playlist_song its) as [songs |] eqn:M;
    cbn [bind try_except]; [ | now left ].
  right. exists id, playlist, items, its, songs.
  repeat split; try assumption; try reflexivity. now apply mapM_Forall2.
Qed.

(** X12. One item the handler cannot map, such as an item whose track is
    [null], turns the whole answer into 400 ["Invalid Spotify playlist
    link"]: the songs of the other items are not returned. *)
Theorem get_playlist_songs_all_or_nothing (d : list (string * value))
    (playlist_id : string) (playlist : value) (items : list value)
    (bad : list (string * value)) :
  playlist_id_of (field d "playlist_link") = Ok playlist_id ->
  sp_playlist_tracks (VStr playlist_id) = Ok playlist ->
  item playlist "items" = Ok (VList items) ->
  In (VDict bad) items ->
  field bad "track" = VNone ->
  get_playlist_songs (VDict d)
  = Ok (Json 400 (error_body "Invalid Spotify playlist link")).
Proof.
  intros I P It B T. unfold get_playlist_songs. rewrite get_field. cbn [bind].
  rewrite I. cbn [bind]. rewrite P. cbn [bind]. rewrite It. cbn [bind iter].
  assert (R : exists e, playlist_song (VDict bad) = Raise e).
  { unfold playlist_song, item. unfold field in T.
    destruct (assoc "track" bad); [ subst; cbn | cbn ]; eauto. }
  destruct R as [e R].
  destruct (mapM_In_raise _ _ _ _ _ _ B R) as [e' ->]. reflexivity.
Qed.

End PlaylistProperties.

(** ** The download orchestrator *)

Section DownloadProperties.

Context {S : Services}.

Lemma download_loop_ok (songs : list value) (paths : list (option string))
    (acc : list value) :
  mapM (fun song => search_and_download_song song DOWNLOAD_FOLDER) songs
  = Ok paths ->
  download_loop songs acc = Ok (acc ++ kept_names paths)%list.
Proof.
  revert paths acc. induction songs as [| song songs IH]; cbn; intros paths acc M.
  - inv M. cbn. now rewrite app_nil_r.
  - destruct (search_and_download_song song DOWNLOAD_FOLDER) as [file_path |];
      cbn in *; [ | discriminate ].
    destruct (mapM (fun song => search_and_download_song song DOWNLOAD_FOLDER) songs)
      as [rest |] eqn:R; cbn in M; [ | discriminate ].
    inv M. rewrite (IH rest _ eq_refl).
    destruct file_path as [p |]; cbn [kept_names]; [ | reflexivity ].
    destruct (negb (p =? "")%string); [ | reflexivity ].
    now rewrite <- app_assoc.
Qed.

Lemma download_loop_aborts (before : list value) (song : value)
    (rest acc : list value) (e : exn) :
  search_and_download_song song DOWNLOAD_FOLDER = Raise e ->
  exists e', download_loop (before ++ song :: rest) acc = Raise e'.
Proof.
  intro F. revert acc. induction before as [| x xs IH]; intro acc; cbn.
  - rewrite F. cbn. eauto.
  - destruct (search_and_download_song x DOWNLOAD_FOLDER); cbn; eauto.
Qed.

Lemma append_sep_assoc (a b c : string) :
  (a ++ String "/" (b ++ c))%string = ((a ++ String "/" b) ++ c)%string.
Proof.
  induction a as [| x a IH]; cbn; [ reflexivity | now rewrite IH ].
Qed.

Lemma basename_after_sep (a b : string) :
  char_free "/" b = true -> Posix.basename (a ++ String "/" b) = b.
Proof.
  intro F. unfold Posix.basename, Posix.sep.
  rewrite split_on_app, last_app_nonempty by apply split_on_nonempty.
  now rewrite (split_on_free "/" b F).
Qed.

(** X13. When the tool raises for none of the names, [download_songs]
    answers 200 with the base names of the paths found, in the order of the
    names; a name whose answer has no ['entries'] adds nothing to the
    list. *)
Theorem download_songs_keeps_order (d : list (string * value))
    (songs : list value) (paths : list (option string)) :
  field d "songs" = VList songs ->
  mapM (fun song => search_and_download_song song DOWNLOAD_FOLDER) songs
  = Ok paths ->
  download_songs (VDict d)
  = Ok (Json 200 (VDict [("downloaded_songs", VList (kept_names paths))])).
Proof.
  intros F M. unfold download_songs. rewrite get_field, F. cbn [bind iter].
  now rewrite (download_loop_ok songs paths [] M).
Qed.

(** X14. For a name whose search has a first entry titled [title], the
    path reported is [downloads/<title>.mp3]. The file name that goes into
    the answer is [<title>.mp3] when the title holds no ["/"]; for a title
    [a/b] it is only [b.mp3], what follows the last ["/"]. *)
Theorem downloaded_file_name (song info first : value) (others : list value)
    (title : string) :
  ydl_extract_info (DownloadOpts DOWNLOAD_FOLDER)
    (VStr ("ytsearch:" ++ py_str song)) true = Ok info ->
  item info "entries" = Ok (VList (first :: others)) ->
  item first "title" = Ok (VStr title) ->
  search_and_download_song song DOWNLOAD_FOLDER
  = Ok (Some ("downloads/" ++ title ++ ".mp3")%string)
  /\ (char_free "/" title = true ->
      Posix.basename ("downloads/" ++ title ++ ".mp3") = (title ++ ".mp3")%string)
  /\ (forall a b, title = (a ++ "/" ++ b)%string -> char_free "/" b = true ->
      Posix.basename ("downloads/" ++ title ++ ".mp3") = (b ++ ".mp3")%string).
Proof.
  intros Q E T. split; [ | split ].
  - unfold search_and_download_song. rewrite Q. cbn [bind].
    destruct (item_dict_inv _ _ _ E) as (i & -> & A).
    cbn [contains bind item]. rewrite A. cbn [bind].
    change (item_int (VList (first :: others)) 0) with (seq_index (first :: others) 0).
    rewrite seq_index_first. cbn [bind]. rewrite T. reflexivity.
  - intro F.
    change ("downloads/" ++ title ++ ".mp3")%string
      with ("downloads" ++ String "/" (title ++ ".mp3"))%string.
    apply basename_after_sep. now rewrite char_free_app, F.
  - intros a b -> F.
    replace ("downloads/" ++ (a ++ "/" ++ b) ++ ".mp3")%string
      with (("downloads/" ++ a) ++ String "/" (b ++ ".mp3"))%string.
    + apply basename_after_sep. now rewrite char_free_app, F.
    + cbn. do 10 f_equal. apply append_sep_assoc.
Qed.

(** X15. A name whose search comes back with an empty list of entries does
    not count as a miss to skip: [info['entries'][0]] raises [IndexError],
    nothing catches it, and the whole request ends in an exception. *)
Theorem download_songs_no_hit_raises (d : list (string * value))
    (before : list value) (song : value) (rest : list value) (info : value) :
  field d "songs" = VList (before ++ song :: rest) ->
  ydl_extract_info (DownloadOpts DOWNLOAD_FOLDER)
    (VStr ("ytsearch:" ++ py_str song)) true = Ok info ->
  item info "entries" = Ok (VList []) ->
  search_and_download_song song DOWNLOAD_FOLDER = Raise IndexError /\
  exists e, download_songs (VDict d) = Raise e.
Proof.
  intros F Q E.
  assert (R : search_and_download_song song DOWNLOAD_FOLDER = Raise IndexError).
  { unfold search_and_download_song. rewrite Q. cbn [bind].
    destruct (item_dict_inv _ _ _ E) as (i & -> & A).
    cbn [contains bind item]. rewrite A. reflexivity. }
  split; [ exact R | ].
  unfold download_songs. rewrite get_field, F. cbn [bind iter].
  destruct (download_loop_aborts before song rest [] _ R) as [e' ->].
  cbn. eauto.
Qed.

(** X16. A body with no [songs], or [null] for it, makes [download_songs]
    raise [TypeError] at the head of its loop; an empty list of names is
    answered with 200 and an empty list of files, the tool not being
    asked. *)
Theorem download_songs_without_names (d : list (string * value)) :
  (field d "songs" = VNone -> download_songs (VDict d) = Raise TypeError) /\
  (field d "songs" = VList [] ->
   download_songs (VDict d)
   = Ok (Json 200 (VDict [("downloaded_songs", VList [])]))).
Proof.
  split; intro F; unfold download_songs; rewrite get_field, F; reflexivity.
Qed.

End DownloadProperties.

(** ** File delivery: the names the endpoint takes *)

Section DeliveryProperties.

Import Posix Confinement Disk.

Lemma sep_free_char_free (s : string) : sep_free s = char_free "/" s.
Proof.
  induction s as [| x s IH]; cbn; [ reflexivity | now rewrite IH ].
Qed.

Lemma prefix_cons (a b : ascii) (s t : string) :
  prefix (String a s) (String b t) = if ascii_dec a b then prefix s t else false.
Proof. reflexivity. Qed.

Lemma sep_free_cons (x : ascii) (s : string) :
  sep_free (String x s) = true -> x <> "/"%char /\ sep_free s = true.
Proof.
  cbn [sep_free]. intro F. apply andb_true_iff in F. destruct F as [X F].
  split; [ | assumption ]. intros ->. discriminate X.
Qed.

Lemma startswith_sep_false (c : string) :
  sep_free c = true -> startswith "/" c = false.
Proof.
  destruct c as [| x c]; [ reflexivity | ]. intro F.
  apply sep_free_cons in F. destruct F as [N _].
  unfold startswith. rewrite prefix_cons.
  destruct (ascii_dec "/" x) as [E | _]; [ now elim N | reflexivity ].
Qed.

Lemma startswith_dotdot_false (c : string) :
  sep_free c = true -> startswith "../" c = false.
Proof.
  unfold startswith. intro F.
  destruct c as [| x c]; [ reflexivity | ].
  apply sep_free_cons in F. destruct F as [_ F]. rewrite prefix_cons.
  destruct (ascii_dec "." x); [ | reflexivity ].
  destruct c as [| y c]; [ reflexivity | ].
  apply sep_free_cons in F. destruct F as [_ F]. rewrite prefix_cons.
  destruct (ascii_dec "." y); [ | reflexivity ].
  destruct c as [| z c]; [ reflexivity | ].
  apply sep_free_cons in F. destruct F as [N _]. rewrite prefix_cons.
  destruct (ascii_dec "/" z) as [E | _]; [ now elim N | reflexivity ].
Qed.

Lemma normpath_plain (c : string) : plain c = true -> normpath c = c.
Proof.
  intro P. destruct (plain_inv _ P) as (H0 & H1 & H2 & F).
  unfold normpath. rewrite H0, (startswith_sep_false c F).
  rewrite (split_on_sep_free c F). cbn [fold_left]. unfold norm_step.
  rewrite H0, H1, H2. cbn. now rewrite H0.
Qed.

Lemma safe_join_plain (c : string) :
  plain c = true ->
  safe_join DOWNLOAD_FOLDER c = Some ("downloads/" ++ c)%string.
Proof.
  intro P. destruct (plain_inv _ P) as (H0 & H1 & H2 & F).
  unfold safe_join. change (DOWNLOAD_FOLDER =? "")%string with false. cbv iota.
  rewrite H0. cbn [negb]. rewrite (normpath_plain c P).
  unfold isabs. rewrite (startswith_sep_false c F), H2,
    (startswith_dotdot_false c F). cbn [orb].
  destruct (resolve_join_relative c (startswith_sep_false c F)) as [J _].
  rewrite J. reflexivity.
Qed.

Lemma long_name_plain (s : string) :
  (3 <= String.length s)%nat -> sep_free s = true -> plain s = true.
Proof.
  intros L F. unfold plain. rewrite F.
  destruct s as [| x [| y [| z s]]]; cbn in L; try lia.
  cbn. now destruct (x =? ".")%char, (y =? ".")%char.
Qed.

Lemma mp3_name_plain (title : string) :
  char_free "/" title = true -> plain (title ++ ".mp3") = true.
Proof.
  intro F. apply long_name_plain.
  - clear F. induction title as [| x t IH]; cbn in *; lia.
  - now rewrite sep_free_char_free, char_free_app, F.
Qed.

Lemma is_file_unlink_other (fs : filesystem) (p q : string) :
  q <> p -> is_file (unlink fs p) q = is_file fs q.
Proof.
  intro N. unfold is_file, unlink.
  induction fs as [| x fs IH]; cbn; [ reflexivity | ].
  destruct (String.eqb_spec x p) as [-> | Nx]; cbn.
  - apply String.eqb_neq in N. rewrite String.eqb_sym in N. now rewrite N.
  - now rewrite IH.
Qed.

(** X17. For a name that is a single component ([no "/"], not empty, not
    ["."] or [".."]) the endpoint goes by the file [downloads/<name>]
    alone: it is looked up, and it is opened and sent, with its removal
    registered, exactly when it is on disk; otherwise the answer is 404.
    The name [".."] is answered with 404 without a look at the disk. *)
Theorem download_file_plain_name (fs : filesystem) (name : string) :
  (plain name = true ->
   download_file fs name =
     if is_file fs ("downloads/" ++ name)
     then (Attachment ("downloads/" ++ name) [OsRemove ("downloads/" ++ name)],
           [EvStat ("downloads/" ++ name); EvOpen ("downloads/" ++ name)])
     else (Json 404 (error_body "File not found"),
           [EvStat ("downloads/" ++ name)]))
  /\ download_file fs ".." = (Json 404 (error_body "File not found"), []).
Proof.
  split; [ | reflexivity ].
  intro P. exact (download_file_joined fs name _ (safe_join_plain name P)).
Qed.

(** X18. What [download_songs] reports, [download_file] takes: for a title
    with no ["/"] the file name in the answer of [download_songs] leads
    [download_file] to the path [search_and_download_song] reported, and
    the file is delivered when it is there. *)
Theorem downloaded_name_is_deliverable (fs : filesystem) (title : string) :
  char_free "/" title = true ->
  safe_join DOWNLOAD_FOLDER (basename ("downloads/" ++ title ++ ".mp3"))
  = Some ("downloads/" ++ title ++ ".mp3")%string
  /\ (is_file fs ("downloads/" ++ title ++ ".mp3") = true ->
      download_file fs (basename ("downloads/" ++ title ++ ".mp3"))
      = (Attachment ("downloads/" ++ title ++ ".mp3")
           [OsRemove ("downloads/" ++ title ++ ".mp3")],
         [EvStat ("downloads/" ++ title ++ ".mp3");
          EvOpen ("downloads/" ++ title ++ ".mp3")])).
Proof.
  intro F.
  assert (B : basename ("downloads/" ++ title ++ ".mp3") = (title ++ ".mp3")%string).
  { change ("downloads/" ++ title ++ ".mp3")%string
      with ("downloads" ++ String "/" (title ++ ".mp3"))%string.
    unfold basename, sep.
    rewrite split_on_app, last_app_nonempty by apply split_on_nonempty.
    rewrite split_on_free; [ reflexivity | now rewrite char_free_app, F ]. }
  rewrite B.
  pose proof (safe_join_plain _ (mp3_name_plain title F)) as J.
  split; [ exact J | ].
  intro I. rewrite (download_file_joined fs _ _ J).
  change ("downloads/" ++ title ++ ".mp3")%string
    with ("downloads/" ++ (title ++ ".mp3"))%string in I.
  now rewrite I.
Qed.

Lemma working_files_os_remove (d : state) (p : string) :
  working_files (os_remove d p) = unlink (working_files d) p.
Proof.
  unfold working_files, os_remove. now destruct (cwd_files d).
Qed.

Lemma root_files_os_remove (d : state) (p q : string) :
  q <> p -> is_file (root_files (os_remove d p)) q = is_file (root_files d) q.
Proof.
  intro N. unfold os_remove. destruct (cwd_files d); cbn [root_files];
    [ reflexivity | now apply is_file_unlink_other ].
Qed.

(** X19. A [GET], delivered or answered with an error, changes nothing on
    disk. A [HEAD], or a [GET] answered 304, for a file that is there runs
    the registered [os.remove]: the file of that name is then gone from the
    working directory and every other file is where it was; run from
    another directory than the application root, the file [send_file] read
    stays as well. *)
Theorem serve_download_keeps_other_files (d : state) (filename : string)
    (kind : request_kind) (how : transfer) (d' : state)
    (response : http_response) (events : list event) :
  serve_download d filename kind how = (d', response, events) ->
  match response with
  | Json _ _ => d' = d
  | Attachment p _ =>
      match kind with
      | Get => d' = d
      | Head | GetNotModified =>
          is_file (working_files d') p = false /\
          (forall q, q <> p ->
                     is_file (working_files d') q = is_file (working_files d) q /\
                     is_file (root_files d') q = is_file (root_files d) q) /\
          (forall files, cwd_files d = Some files -> root_files d' = root_files d)
      end
  end.
Proof.
  unfold serve_download. intro V.
  assert (R : forall p,
             is_file (working_files (os_remove d p)) p = false /\
             (forall q, q <> p ->
                is_file (working_files (os_remove d p)) q
                = is_file (working_files d) q /\
                is_file (root_files (os_remove d p)) q = is_file (root_files d) q) /\
             (forall files, cwd_files d = Some files ->
                root_files (os_remove d p) = root_files d)).
  { intro p. rewrite working_files_os_remove.
    split; [ apply is_file_unlink | split ].
    - intros q N. split;
        [ now apply is_file_unlink_other | now apply root_files_os_remove ].
    - intros files C. unfold os_remove. now rewrite C. }
  destruct (safe_join DOWNLOAD_FOLDER filename) as [p |] eqn:J.
  - rewrite (download_file_joined (root_files d) filename p J) in V.
    destruct (is_file (root_files d) p); destruct kind; cbn in V; inv V;
      try reflexivity; apply R.
  - rewrite (download_file_rejected (root_files d) filename J) in V. now inv V.
Qed.

End DeliveryProperties.

(** ** The static asset server *)

Section StaticProperties.

Import Posix Confinement Static.

(** what [safe_join] lets through, for any directory: the directory joined
    with nothing (for the empty name), with ["."], or with names *)
Lemma safe_join_shape (directory f p : string) :
  safe_join directory f = Some p ->
  exists n,
    p = join (if (directory =? "")%string then "." else directory) n /\
    ((f = "" /\ n = "") \/ n = "." \/
     exists names,
       names <> [] /\ Forall (fun c => plain c = true) names /\
       n = String.concat "/" names).
Proof.
  unfold safe_join.
  destruct (String.eqb_spec f "") as [-> | N]; cbn [negb].
  - cbn. intro H. inv H. exists "". auto.
  - destruct (isabs (normpath f) || startswith "/" (normpath f)
              || (normpath f =? "..")%string || startswith "../" (normpath f))
      eqn:C; [ discriminate | ].
    intro H. inv H. exists (normpath f). split; [ reflexivity | right ].
    apply orb_false_iff in C. destruct C as [C C3].
    apply orb_false_iff in C. destruct C as [C C2].
    apply orb_false_iff in C. destruct C as [_ C1].
    destruct (startswith "/" f) eqn:R.
    { rewrite (normpath_absolute f R) in C1. discriminate. }
    destruct (normpath_relative f N R) as (nc & Hn & _ & E).
    destruct (normal_head nc Hn) as [-> | [(l & ->) | (Hne & P)]].
    + left. exact E.
    + exfalso.
      assert (D : String.concat "/" (".." :: l) <> "")
        by (apply concat_cons_nonempty; discriminate).
      apply String.eqb_neq in D. rewrite D in E. rewrite E in C2, C3.
      destruct (concat_dotdot l) as [K | K].
      * rewrite K in C2. discriminate.
      * rewrite K in C3. discriminate.
    + right. exists nc.
      assert (D : String.concat "/" nc <> "").
      { destruct nc as [| x l]; [ contradiction | ].
        apply concat_cons_nonempty. inv P.
        destruct (plain_inv _ H1) as (H0 & _). now apply String.eqb_neq. }
      apply String.eqb_neq in D. rewrite D in E. auto.
Qed.

Lemma static_folder_nonempty (root_path : string) :
  (static_folder root_path =? "")%string = false.
Proof.
  unfold static_folder, join. change (startswith "/" "build") with false.
  cbv iota. destruct root_path as [| x r]; [ reflexivity | ].
  now destruct ((String x r =? "")%string || endswith_sep (String x r)).
Qed.

Lemma safe_join_index (directory : string) :
  (directory =? "")%string = false ->
  safe_join directory "index.html" = Some (join directory "index.html").
Proof.
  intro D. unfold safe_join. rewrite D. reflexivity.
Qed.

(** X20. Whatever path is asked for, a file [serve] sends lies in the
    static folder: it is a regular file, and its path is the static folder
    joined with names (or with ["."]), with no [".."] and no absolute path
    among them, even though [os.path.exists] was asked about the path as it
    came. *)
Theorem serve_confined (t : tree) (root_path path p : string) :
  serve t root_path path = ServedFile p ->
  path_isfile t p = true /\
  exists n,
    p = join root_path (join (static_folder root_path) n) /\
    (n = "." \/
     exists names,
       names <> [] /\ Forall (fun c => plain c = true) names /\
       n = String.concat "/" names).
Proof.
  unfold serve.
  assert (Sent : forall f, f <> "" ->
            send_from_directory t root_path (static_folder root_path) f
            = ServedFile p ->
            path_isfile t p = true /\
            exists n,
              p = join root_path (join (static_folder root_path) n) /\
              (n = "." \/
               exists names,
                 names <> [] /\ Forall (fun c => plain c = true) names /\
                 n = String.concat "/" names)).
  { intros f N. unfold send_from_directory.
    destruct (safe_join (static_folder root_path) f) as [q |] eqn:J;
      [ | discriminate ].
    destruct (path_isfile t (join root_path q)) eqn:I; [ | discriminate ].
    intro H. inv H. split; [ assumption | ].
    destruct (safe_join_shape _ _ _ J) as (n & -> & Hn).
    rewrite static_folder_nonempty. exists n. split; [ reflexivity | ].
    destruct Hn as [[E _] | [E | E]]; [ contradiction | now left | now right ]. }
  destruct (String.eqb_spec path "") as [-> | N]; cbn [negb andb].
  - apply Sent. discriminate.
  - destruct (path_exists t (join (static_folder root_path) path)).
    + now apply Sent.
    + apply Sent. discriminate.
Qed.

(** X21. The root path, and every path that does not exist under the static
    folder, is answered with the entry document [index.html] of the static
    folder, or with [NotFound] when that file is missing. *)
Theorem serve_fallback (t : tree) (root_path path : string) :
  path = "" \/ path_exists t (join (static_folder root_path) path) = false ->
  serve t root_path path =
    if path_isfile t
         (join root_path (join (static_folder root_path) "index.html"))
    then ServedFile (join root_path (join (static_folder root_path) "index.html"))
    else NotFound.
Proof.
  intro H. unfold serve.
  replace (negb (path =? "")%string
           && path_exists t (join (static_folder root_path) path)) with false.
  - unfold send_from_directory.
    now rewrite (safe_join_index _ (static_folder_nonempty root_path)).
  - destruct H as [-> | ->]; [ reflexivity | now rewrite andb_false_r ].
Qed.

(** X22. A path that exists but is not a regular file of the static folder
    gets [NotFound] and not the entry document: so for a directory of the
    static folder, and so for a path that [safe_join] turns down, as one that
    climbs out with [".."] to a file that is there. *)
Theorem serve_existing_not_file (t : tree) (root_path path : string) :
  path <> "" ->
  path_exists t (join (static_folder root_path) path) = true ->
  safe_join (static_folder root_path) path = None \/
  (exists q, safe_join (static_folder root_path) path = Some q /\
             path_isfile t (join root_path q) = false) ->
  serve t root_path path = NotFound.
Proof.
  intros N E H. unfold serve. apply String.eqb_neq in N. rewrite N, E.
  cbn [negb andb]. unfold send_from_directory.
  destruct H as [-> | (q & -> & ->)]; reflexivity.
Qed.

End StaticProperties.

(** * The further properties on the stub collaborators *)

Section MoreRuns.

Import Posix Confinement Disk Static.

Lemma validate_song_youtube_outcome_witness :
  validate_song (S := Cases.fixed Cases.silent Cases.silent (Ok Cases.video))
    (VDict [("youtube_link", Sample.youtube_link)])
  = Ok (Json 200 (VDict [("full_name", VStr "Flamenco Sketches");
                         ("preview_image", VStr "https://i.ytimg.com/vi/fs/hq.jpg");
                         ("duration", VInt 566);
                         ("preview_url", VNone);
                         ("source", VStr "youtube")])).
Proof.
  apply (validate_song_youtube_outcome
           (S := Cases.fixed Cases.silent Cases.silent (Ok Cases.video))
           [("youtube_link", Sample.youtube_link)]);
    reflexivity.
Defined.

Lemma validate_song_spotify_error_witness :
  validate_song
    (S := Cases.fixed (Ok Cases.plain_track) Cases.silent Cases.silent)
    (VDict Sample.link_only)
  = Ok (Json 400 (error_body "Invalid Spotify link")).
Proof.
  apply (validate_song_spotify_error
           (S := Cases.fixed (Ok Cases.plain_track) Cases.silent Cases.silent)
           Sample.link_only); [ reflexivity | right ].
  exists Cases.plain_track, (VStr "So What"), (VDict [("images", VList [])]).
  repeat split.
Defined.

Lemma validate_song_no_results_witness :
  validate_song (S := Sample.services)
    (VDict [("song_name", VStr "take five"); ("page", VInt 3)])
  = Ok (Json 400 (error_body "No valid song link or name provided")).
Proof.
  apply (validate_song_no_results (S := Sample.services)
           [("song_name", VStr "take five"); ("page", VInt 3)] 3
           (VDict [("entries", VList Sample.entries)]));
    try reflexivity.
  right. exists Sample.entries. split; [ reflexivity | cbn; lia ].
Defined.

Lemma validate_song_free_text_witness :
  validate_song (S := Sample.services)
    (VDict [("song_name", VStr "take five"); ("page", VInt 2)])
  = Ok (Json 200
          (VDict [("song_options",
                   VList [Sample.option_of "6"; Sample.option_of "7"]);
                  ("has_more", VBool false)])).
Proof.
  apply (validate_song_free_text (S := Sample.services)
           [("song_name", VStr "take five"); ("page", VInt 2)] 2
           (VDict [("entries", VList Sample.entries)]) Sample.entries
           [Sample.option_of "6"; Sample.option_of "7"]);
    try reflexivity.
  discriminate.
Defined.

Lemma validate_song_entry_without_thumbnails_witness :
  validate_song
    (S := Cases.fixed Cases.silent Cases.silent
            (Ok (VDict [("entries", VList [Sample.entry "1"; Cases.bare_entry])])))
    (VDict [("song_name", VStr "blue in green")])
  = Raise TypeError.
Proof.
  apply (validate_song_entry_without_thumbnails
           (S := Cases.fixed Cases.silent Cases.silent
                   (Ok (VDict [("entries", VList [Sample.entry "1"; Cases.bare_entry])])))
           [("song_name", VStr "blue in green")] 1
           (VDict [("entries", VList [Sample.entry "1"; Cases.bare_entry])])
           [Sample.entry "1"; Cases.bare_entry]
           [Sample.entry "1"] []
           [("title", VStr "Blue in Green");
            ("url", VStr "https://www.youtube.com/watch?v=TLDflhhdPCg")]
           [Sample.option_of "1"]);
    reflexivity.
Defined.

Lemma validate_song_bad_page_witness :
  validate_song (S := Sample.services)
    (VDict [("song_name", VStr "take five"); ("page", VNone)])
  = Raise TypeError.
Proof.
  apply (validate_song_bad_page (S := Sample.services)
           [("song_name", VStr "take five"); ("page", VNone)]);
    try reflexivity.
  left. reflexivity.
Defined.

Lemma has_more_false_within_count_witness :
  exists results,
    search_youtube_songs (S := Sample.services) (VStr "take five") (VInt 2)
    = Ok (results, VBool false).
Proof.
  apply (has_more_false_within_count (S := Sample.services)
           (VStr "take five") 2 (VDict [("entries", VList Sample.entries)])
           Sample.entries);
    [ reflexivity | reflexivity | cbn; lia ].
Defined.

Lemma consecutive_pages_tile_witness :
  exists more next_more,
    search_youtube_songs (S := Cases.ranked) (VStr "so what") (VInt 1)
    = Ok (VList (page_window Cases.ranking 1), more) /\
    search_youtube_songs (S := Cases.ranked) (VStr "so what") (VInt 2)
    = Ok (VList (page_window Cases.ranking 2), next_more) /\
    (page_window Cases.ranking 1 ++ page_window Cases.ranking 2)%list
    = firstn 10 (skipn (Z.to_nat ((1 - 1) * 5)) Cases.ranking).
Proof.
  apply (consecutive_pages_tile (S := Cases.ranked) (VStr "so what") 1
           (VDict [("entries", VList (firstn 5 Cases.ranking))])
           (VDict [("entries", VList (firstn 10 Cases.ranking))])
           Cases.ranking);
    [ lia | reflexivity | reflexivity | reflexivity | reflexivity ].
Defined.

Lemma playlist_id_of_link_witness :
  playlist_id_of
    (VStr "https://open.spotify.com/playlist/37i9dQZF1DXbITWG1ZJKYt") 
  = Ok "37i9dQZF1DXbITWG1ZJKYt" /\
  playlist_id_of
    (VStr "https://open.spotify.com/playlist/37i9dQZF1DXbITWG1ZJKYt?si=4f6a")
  = Ok "37i9dQZF1DXbITWG1ZJKYt".
Proof.
  apply (playlist_id_of_link "https://open.spotify.com/playlist"
           "37i9dQZF1DXbITWG1ZJKYt" "si=4f6a");
    reflexivity.
Defined.

Lemma playlist_id_of_clean_witness :
  playlist_id_of VNone = Raise AttributeError.
Proof.
  destruct playlist_id_of_clean as [_ N]. apply N. discriminate.
Defined.

Lemma get_playlist_songs_all_or_nothing_witness :
  get_playlist_songs
    (S := Cases.fixed Cases.silent (Ok Cases.holed_playlist) Cases.silent)
    (VDict [("playlist_link",
             VStr "https://open.spotify.com/playlist/37i9dQZF1DXbITWG1ZJKYt")])
  = Ok (Json 400 (error_body "Invalid Spotify playlist link")).
Proof.
  apply (get_playlist_songs_all_or_nothing
           (S := Cases.fixed Cases.silent (Ok Cases.holed_playlist) Cases.silent)
           [("playlist_link",
             VStr "https://open.spotify.com/playlist/37i9dQZF1DXbITWG1ZJKYt")]
           "37i9dQZF1DXbITWG1ZJKYt" Cases.holed_playlist
           [VDict [("track", Sample.track)]; VDict [("track", VNone)]]
           [("track", VNone)]);
    try reflexivity.
  right. left. reflexivity.
Defined.

Lemma download_songs_keeps_order_witness :
  download_songs (S := Cases.patchy)
    (VDict [("songs", VList [VStr "a"; VStr "b"; VStr "c"])])
  = Ok (Json 200 (VDict [("downloaded_songs",
                          VList [VStr "Take 1.mp3"; VStr "Take 1.mp3"])])).
Proof.
  apply (download_songs_keeps_order (S := Cases.patchy)
           [("songs", VList [VStr "a"; VStr "b"; VStr "c"])]
           [VStr "a"; VStr "b"; VStr "c"]
           [Some "downloads/Take 1.mp3"; None; Some "downloads/Take 1.mp3"]);
    reflexivity.
Defined.

Lemma downloaded_file_name_witness :
  (search_and_download_song (S := Sample.services) (VStr "b") DOWNLOAD_FOLDER
   = Ok (Some "downloads/Take 1.mp3") /\
   basename "downloads/Take 1.mp3" = "Take 1.mp3")
  /\ (search_and_download_song
        (S := Cases.fixed Cases.silent Cases.silent (Ok Cases.slash_hit))
        (VStr "thunderstruck") DOWNLOAD_FOLDER
      = Ok (Some "downloads/AC/DC - Thunderstruck.mp3") /\
      basename "downloads/AC/DC - Thunderstruck.mp3" = "DC - Thunderstruck.mp3").
Proof.
  split.
  - destruct (downloaded_file_name (S := Sample.services) (VStr "b")
                (VDict [("entries", VList [Sample.entry "1"])])
                (Sample.entry "1") [] "Take 1" eq_refl eq_refl eq_refl)
      as (P & B & _).
    split; [ exact P | exact (B eq_refl) ].
  - destruct (downloaded_file_name
                (S := Cases.fixed Cases.silent Cases.silent (Ok Cases.slash_hit))
                (VStr "thunderstruck") Cases.slash_hit
                (VDict [("title", VStr "AC/DC - Thunderstruck")]) []
                "AC/DC - Thunderstruck" eq_refl eq_refl eq_refl)
      as (P & _ & B).
    split; [ exact P | exact (B "AC" "DC - Thunderstruck" eq_refl eq_refl) ].
Defined.

Lemma download_songs_no_hit_raises_witness :
  search_and_download_song
    (S := Cases.fixed Cases.silent Cases.silent (Ok Cases.no_hit))
    (VStr "kind of blue") DOWNLOAD_FOLDER
  = Raise IndexError /\
  exists e,
    download_songs
      (S := Cases.fixed Cases.silent Cases.silent (Ok Cases.no_hit))
      (VDict [("songs", VList [VStr "kind of blue"; VStr "so what"])])
    = Raise e.
Proof.
  apply (download_songs_no_hit_raises
           (S := Cases.fixed Cases.silent Cases.silent (Ok Cases.no_hit))
           [("songs", VList [VStr "kind of blue"; VStr "so what"])]
           [] (VStr "kind of blue") [VStr "so what"] Cases.no_hit);
    reflexivity.
Defined.

Lemma download_songs_without_names_witness :
  download_songs (S := Sample.services) (VDict [("songs", VNone)])
  = Raise TypeError /\
  download_songs (S := Sample.services) (VDict [("songs", VList [])])
  = Ok (Json 200 (VDict [("downloaded_songs", VList [])])).
Proof.
  split.
  - destruct (download_songs_without_names (S := Sample.services)
                [("songs", VNone)]) as [N _].
    apply N. reflexivity.
  - destruct (download_songs_without_names (S := Sample.services)
                [("songs", VList [])]) as [_ E].
    apply E. reflexivity.
Defined.

Lemma download_file_plain_name_witness :
  download_file Sample.disk "Take 1.mp3"
  = (Attachment "downloads/Take 1.mp3" [OsRemove "downloads/Take 1.mp3"],
     [EvStat "downloads/Take 1.mp3"; EvOpen "downloads/Take 1.mp3"])
  /\ download_file Sample.disk "Take 2.mp3"
     = (Json 404 (error_body "File not found"), [EvStat "downloads/Take 2.mp3"]).
Proof.
  split.
  - destruct (download_file_plain_name Sample.disk "Take 1.mp3") as [P _].
    exact (P eq_refl).
  - destruct (download_file_plain_name Sample.disk "Take 2.mp3") as [P _].
    exact (P eq_refl).
Defined.

Lemma downloaded_name_is_deliverable_witness :
  safe_join DOWNLOAD_FOLDER (basename "downloads/Take 1.mp3")
  = Some "downloads/Take 1.mp3" /\
  download_file Sample.disk (basename "downloads/Take 1.mp3")
  = (Attachment "downloads/Take 1.mp3" [OsRemove "downloads/Take 1.mp3"],
     [EvStat "downloads/Take 1.mp3"; EvOpen "downloads/Take 1.mp3"]).
Proof.
  destruct (downloaded_name_is_deliverable Sample.disk "Take 1" eq_refl)
    as [J D].
  split; [ exact J | exact (D eq_refl) ].
Defined.

Lemma serve_download_keeps_other_files_witness :
  is_file ["downloads/So What.mp3"] "downloads/Take 1.mp3" = false /\
  is_file ["downloads/So What.mp3"] "downloads/So What.mp3"
  = is_file Sample.disk "downloads/So What.mp3".
Proof.
  destruct (serve_download_keeps_other_files Sample.one_directory "Take 1.mp3"
              Head Completed
              {| root_files := ["downloads/So What.mp3"]; cwd_files := None |}
              (Attachment "downloads/Take 1.mp3" [OsRemove "downloads/Take 1.mp3"])
              [EvStat "downloads/Take 1.mp3"; EvOpen "downloads/Take 1.mp3";
               EvRemove "downloads/Take 1.mp3"]
              eq_refl) as (Gone & Others & _).
  split; [ exact Gone | ].
  destruct (Others "downloads/So What.mp3") as [W _]; [ discriminate | exact W ].
Defined.

Lemma serve_confined_witness :
  path_isfile Cases.site "/srv/app/build/main.js" = true /\
  exists n,
    "/srv/app/build/main.js"
    = join "/srv/app" (join (static_folder "/srv/app") n) /\
    (n = "." \/
     exists names,
       names <> [] /\ Forall (fun c => plain c = true) names /\
       n = String.concat "/" names).
Proof.
  apply (serve_confined Cases.site "/srv/app" "main.js" "/srv/app/build/main.js").
  reflexivity.
Defined.

Lemma serve_fallback_witness :
  serve Cases.site "/srv/app" "" = ServedFile "/srv/app/build/index.html" /\
  serve Cases.site "/srv/app" "playlists/42"
  = ServedFile "/srv/app/build/index.html".
Proof.
  split.
  - apply (serve_fallback Cases.site "/srv/app" ""). left. reflexivity.
  - apply (serve_fallback Cases.site "/srv/app" "playlists/42"). right.
    reflexivity.
Defined.

Lemma serve_existing_not_file_witness :
  serve Cases.site "/srv/app" "static" = NotFound /\
  serve Cases.site "/srv/app" "../index.py" = NotFound.
Proof.
  split.
  - apply (serve_existing_not_file Cases.site "/srv/app" "static");
      [ discriminate | reflexivity | right ].
    exists "/srv/app/build/static". split; reflexivity.
  - apply (serve_existing_not_file Cases.site "/srv/app" "../index.py");
      [ discriminate | reflexivity | left; reflexivity ].
Defined.

End MoreRuns.
